(** * Prostate Cancer Exploration Assistant: the page's handlers, verified

    A shallow embedding of [app.py], a Streamlit page over a Snowflake
    session.  Python strings are sequences of Unicode code points, the
    Snowflake session is a store of three tables together with the
    responses of the services the page cannot compute itself (Cortex
    search, the CONTAINS search over the documents table, Cortex
    COMPLETE) and the failures of its statements, and every function of
    the page is a computation in a monad of state and exceptions whose
    state holds the store and the ordered record of what the run did:
    the statements sent to the session and the elements put on the page. *)

From Stdlib Require Import List ZArith NArith String Ascii Bool Lia.
From Stdlib Require Import Permutation Sorted.
From ExtLib Require Import Structures.Monad Structures.MonadExc.
Import ListNotations.
Import MonadNotation.

Local Open Scope Z_scope.
Local Open Scope list_scope.
Local Open Scope monad_scope.

(* ================================================================== *)
(** ** Python values *)
(* ================================================================== *)

Module Py.

(** A [str] is a sequence of code points. *)
Definition char := N.
Definition str := list char.

(** A literal of the source; all of them are ASCII. *)
Definition lit (s : string) : str :=
  List.map N_of_ascii (list_ascii_of_string s).

Fixpoint eqb (s t : str) : bool :=
  match s, t with
  | [], [] => true
  | a :: s', b :: t' => (a =? b)%N && eqb s' t'
  | _, _ => false
  end.

(** [bool(s)] for a string, [bool(l)] for a list. *)
Definition truthy {A : Type} (l : list A) : bool :=
  match l with [] => false | _ :: _ => true end.

(** [df.empty] for a frame of records. *)
Definition empty {A : Type} (l : list A) : bool := negb (truthy l).

(** [bool(x)] for [x] an [int] or [None]. *)
Definition truthy_id (x : option Z) : bool :=
  match x with None => false | Some z => negb (z =? 0) end.

(** [c.isspace()]: the code points CPython treats as whitespace. *)
Definition isspace (c : char) : bool :=
  (((9 <=? c) && (c <=? 13)) || ((28 <=? c) && (c <=? 32))
   || (c =? 133) || (c =? 160) || (c =? 5760)
   || ((8192 <=? c) && (c <=? 8202))
   || (c =? 8232) || (c =? 8233) || (c =? 8239) || (c =? 8287)
   || (c =? 12288))%N.

Fixpoint lstrip (s : str) : str :=
  match s with
  | [] => []
  | c :: s' => if isspace c then lstrip s' else s
  end.

Definition rstrip (s : str) : str := rev (lstrip (rev s)).

(** [s.strip()] *)
Definition strip (s : str) : str := rstrip (lstrip s).

(** [sep.join(items)] *)
Fixpoint str_join (sep : str) (items : list str) : str :=
  match items with
  | [] => []
  | [x] => x
  | x :: rest => x ++ sep ++ str_join sep rest
  end.

(** A [dict] with string keys and string values, in insertion order. *)
Definition dict := list (str * str).

(** The empty string. *)
Definition empty_str : str := [].

(** [d.get(key, default)] *)
Fixpoint get (d : dict) (key default : str) : str :=
  match d with
  | [] => default
  | (k, v) :: d' => if eqb k key then v else get d' key default
  end.

(** The exceptions the page can meet; all are subclasses of
    [Exception]. *)
Inductive exn :=
| SnowparkSQLException (msg : str)
| IndexError (msg : str)
| NameError (name : str).

(** [str(e)], what an f-string prints for [{e}]. *)
Definition str_of_exn (e : exn) : str :=
  match e with
  | SnowparkSQLException msg => msg
  | IndexError msg => msg
  | NameError name => lit "name '" ++ name ++ lit "' is not defined"
  end.

End Py.

Definition pystr : Type := Py.str.
Notation "$ s" := (Py.lit s) (at level 1, s at level 0, format "$ s").

(* ================================================================== *)
(** ** Configuration *)
(* ================================================================== *)

Definition DATABASE := $"RESISTANCE_MECHANISM_ANALYSIS_DB".
Definition SCHEMA := $"PUBLIC".
Definition DOCUMENTS_TABLE := $"DOCUMENTS".
Definition INSIGHTS_TABLE := $"INSIGHTS".
Definition FEEDBACK_TABLE := $"FEEDBACKLOGS".
Definition QUERIES_TABLE := $"QUERIES".
Definition NUM_CHUNKS : Z := 3.

(* ================================================================== *)
(** ** The relational store *)
(* ================================================================== *)

(** Timestamps are the store's clock readings. *)
Definition timestamp := Z.

Module Queries.
Record row := { QUERYID : Z; QUERYTEXT : pystr;
                CREATEDAT : timestamp; USERID : Z }.
End Queries.

Module Insights.
Record row := { INSIGHTID : Z; INSIGHTTEXT : pystr;
                QUERYID : option Z; GENERATEDAT : timestamp }.
End Insights.

Module Feedback.
Record row := { FEEDBACKDETAILS : pystr; FEEDBACKTYPE : pystr;
                INSIGHTID : Z; LOGGEDAT : timestamp }.
End Feedback.

(** A record of the feedback-log view: the four selected columns. *)
Module Logs.
Record row := { FEEDBACKDETAILS : pystr; FEEDBACKTYPE : pystr;
                INSIGHTTEXT : pystr; LOGGEDAT : timestamp }.
End Logs.

(** Modelled from the spec: the tables' declarations are not in the
    repository.  The spec has the ids of queries and insights assigned
    by the store on insert; the model draws them from one sequence per
    table.  [NOW] is what CURRENT_TIMESTAMP() reads. *)
Record Store := {
  QUERIES : list Queries.row;
  INSIGHTS : list Insights.row;
  FEEDBACKLOGS : list Feedback.row;
  QUERYID_SEQ : Z;
  INSIGHTID_SEQ : Z;
  NOW : timestamp
}.

Module Sql.

(** INSERT INTO QUERIES (QUERYTEXT, CREATEDAT, USERID)
    VALUES (?, CURRENT_TIMESTAMP(), ?) *)
Definition insert_query (text : pystr) (user_id : Z) (s : Store) : Store :=
  {| QUERIES := QUERIES s ++
                [ {| Queries.QUERYID := QUERYID_SEQ s;
                     Queries.QUERYTEXT := text;
                     Queries.CREATEDAT := NOW s;
                     Queries.USERID := user_id |} ];
     INSIGHTS := INSIGHTS s;
     FEEDBACKLOGS := FEEDBACKLOGS s;
     QUERYID_SEQ := QUERYID_SEQ s + 1;
     INSIGHTID_SEQ := INSIGHTID_SEQ s;
     NOW := NOW s |}.

(** MAX over a column: NULL over no rows. *)
Fixpoint max_of (l : list Z) : option Z :=
  match l with
  | [] => None
  | x :: l' => match max_of l' with
               | None => Some x
               | Some m => Some (Z.max x m)
               end
  end.

(** SELECT MAX(QUERYID) AS QUERYID FROM QUERIES
    WHERE QUERYTEXT = ? AND USERID = ? *)
Definition select_max_queryid (text : pystr) (user_id : Z) (s : Store)
  : option Z :=
  max_of (map Queries.QUERYID
            (filter (fun r => Py.eqb (Queries.QUERYTEXT r) text
                              && (Queries.USERID r =? user_id))
                    (QUERIES s))).

(** INSERT INTO INSIGHTS (INSIGHTTEXT, QUERYID, GENERATEDAT)
    VALUES (?, ?, CURRENT_TIMESTAMP()) *)
Definition insert_insight (text : pystr) (query_id : option Z) (s : Store)
  : Store :=
  {| QUERIES := QUERIES s;
     INSIGHTS := INSIGHTS s ++
                 [ {| Insights.INSIGHTID := INSIGHTID_SEQ s;
                      Insights.INSIGHTTEXT := text;
                      Insights.QUERYID := query_id;
                      Insights.GENERATEDAT := NOW s |} ];
     FEEDBACKLOGS := FEEDBACKLOGS s;
     QUERYID_SEQ := QUERYID_SEQ s;
     INSIGHTID_SEQ := INSIGHTID_SEQ s + 1;
     NOW := NOW s |}.

(** ORDER BY key DESC, as a stable insertion sort: SQL leaves the
    order of rows with equal keys open, the model keeps the table's. *)
Section OrderBy.
Context {A : Type} (key : A -> Z).

Fixpoint insert_desc (x : A) (l : list A) : list A :=
  match l with
  | [] => [x]
  | y :: l' => if key y <=? key x then x :: l
               else y :: insert_desc x l'
  end.

Fixpoint order_by_desc (l : list A) : list A :=
  match l with
  | [] => []
  | x :: l' => insert_desc x (order_by_desc l')
  end.
End OrderBy.

(** SELECT INSIGHTID FROM INSIGHTS ORDER BY GENERATEDAT DESC LIMIT 1 *)
Definition select_latest_insightid (s : Store) : list Z :=
  map Insights.INSIGHTID
      (firstn 1 (order_by_desc Insights.GENERATEDAT (INSIGHTS s))).

(** INSERT INTO FEEDBACKLOGS
    (FEEDBACKDETAILS, FEEDBACKTYPE, INSIGHTID, LOGGEDAT)
    VALUES (?, ?, ?, CURRENT_TIMESTAMP()) *)
Definition insert_feedback (details type : pystr) (insight_id : Z)
    (s : Store) : Store :=
  {| QUERIES := QUERIES s;
     INSIGHTS := INSIGHTS s;
     FEEDBACKLOGS := FEEDBACKLOGS s ++
                     [ {| Feedback.FEEDBACKDETAILS := details;
                          Feedback.FEEDBACKTYPE := type;
                          Feedback.INSIGHTID := insight_id;
                          Feedback.LOGGEDAT := NOW s |} ];
     QUERYID_SEQ := QUERYID_SEQ s;
     INSIGHTID_SEQ := INSIGHTID_SEQ s;
     NOW := NOW s |}.

(** FEEDBACKLOGS FL JOIN INSIGHTS I ON FL.INSIGHTID = I.INSIGHTID,
    projected on the four selected columns. *)
Definition join_row (fl : Feedback.row) (i : Insights.row) : Logs.row :=
  {| Logs.FEEDBACKDETAILS := Feedback.FEEDBACKDETAILS fl;
     Logs.FEEDBACKTYPE := Feedback.FEEDBACKTYPE fl;
     Logs.INSIGHTTEXT := Insights.INSIGHTTEXT i;
     Logs.LOGGEDAT := Feedback.LOGGEDAT fl |}.

Definition matches (fl : Feedback.row) (i : Insights.row) : bool :=
  Feedback.INSIGHTID fl =? Insights.INSIGHTID i.

Definition feedback_join (s : Store) : list Logs.row :=
  flat_map (fun fl => map (join_row fl) (filter (matches fl) (INSIGHTS s)))
           (FEEDBACKLOGS s).

(** SELECT FL.FEEDBACKDETAILS, FL.FEEDBACKTYPE, I.INSIGHTTEXT, FL.LOGGEDAT
    FROM FEEDBACKLOGS FL JOIN INSIGHTS I ON FL.INSIGHTID = I.INSIGHTID
    ORDER BY FL.LOGGEDAT DESC *)
Definition select_feedback_logs (s : Store) : list Logs.row :=
  order_by_desc Logs.LOGGEDAT (feedback_join s).

End Sql.

(* ================================================================== *)
(** ** The session and the page *)
(* ================================================================== *)

(** A search result: a [dict] whose "CONTENT" key the page reads. *)
Definition document := Py.dict.

(** Rows as [collect()] returns them, one record per result shape. *)
Record cortex_row := { DOCUMENTS : document }.
Record response_row := { RESPONSE : pystr }.
Record queryid_row := { QUERYID : option Z }.
Record insightid_row := { INSIGHTID : Z }.

(** The statements the page sends through [session.sql], named by
    what they do and carrying their bound parameters. *)
Inductive stmt :=
| CortexSearch (query : pystr) (top_k : Z)
| ContainsSearch (query : pystr) (limit : Z)
| CortexComplete (model prompt : pystr)
| InsertQuery (text : pystr) (user_id : Z)
| SelectMaxQueryId (text : pystr) (user_id : Z)
| InsertInsight (text : pystr) (query_id : option Z)
| SelectLatestInsightId
| InsertFeedback (details type : pystr) (insight_id : Z)
| SelectFeedbackLogs.

(** What Streamlit puts on the page.  The spinner of [st.spinner] is
    shown only while its block runs and leaves nothing behind. *)
Inductive element :=
| Markdown (body : pystr)
| Json (docs : list document)
| Write (body : pystr)
| Dataframe (logs : list Logs.row)
| Success (body : pystr)
| Warning (body : pystr)
| Error (body : pystr).

Inductive event :=
| Sent (s : stmt)
| Shown (e : element).

(** What lies outside the page: which statements fail, and with what
    message, and what the search and completion services answer. *)
Record Env := {
  fault : stmt -> option pystr;
  cortex_search : pystr -> Z -> list cortex_row;
  contains_search : pystr -> Z -> list document;
  cortex_complete : pystr -> pystr -> list response_row
}.

Record World := { store : Store; events : list event }.

(** Computations: a final world always, and a value or an exception.
    What was done before an exception stays done. *)
Definition M (A : Type) : Type := World -> (Py.exn + A) * World.

#[export] Instance Monad_M : Monad M := {
  ret := fun _ a w => (inr a, w);
  bind := fun _ _ c k w =>
            match c w with
            | (inr a, w') => k a w'
            | (inl e, w') => (inl e, w')
            end
}.

(** [raise] and [try: ... except Exception as e: ...] *)
#[export] Instance MonadExc_M : MonadExc Py.exn M := {
  raise := fun _ e w => (inl e, w);
  catch := fun _ c h w =>
             match c w with
             | (inr a, w') => (inr a, w')
             | (inl e, w') => h e w'
             end
}.

Definition record (ev : event) : M unit :=
  fun w => (inr tt, {| store := store w; events := events w ++ [ev] |}).

Definition read {A : Type} (f : Store -> A) : M A :=
  fun w => (inr (f (store w)), w).

Definition update (f : Store -> Store) : M unit :=
  fun w => (inr tt, {| store := f (store w); events := events w |}).

(** [with st.spinner(text): body] *)
Definition with_spinner {A : Type} (text : pystr) (body : M A) : M A := body.

Definition st_markdown (body : pystr) : M unit := record (Shown (Markdown body)).
Definition st_json (docs : list document) : M unit := record (Shown (Json docs)).
Definition st_write (body : pystr) : M unit := record (Shown (Write body)).
Definition st_dataframe (logs : list Logs.row) : M unit :=
  record (Shown (Dataframe logs)).
Definition st_success (body : pystr) : M unit := record (Shown (Success body)).
Definition st_warning (body : pystr) : M unit := record (Shown (Warning body)).
Definition st_error (body : pystr) : M unit := record (Shown (Error body)).

(** Looking a name up: [NameError] when no assignment reached it. *)
Definition name_lookup {A : Type} (name : pystr) (binding : option A) : M A :=
  match binding with
  | Some v => ret v
  | None => raise (Py.NameError name)
  end.

(** [rows[0]], raising as a Python list does. *)
Definition first_row {A : Type} (rows : list A) : M A :=
  match rows with
  | r :: _ => ret r
  | [] => raise (Py.IndexError $"list index out of range")
  end.

Section App.

Variable env : Env.

(** [session.sql(s, params)] followed by [collect()] or [to_pandas()]:
    the statement reaches the session, and fails there or runs. *)
Definition session_sql (s : stmt) : M unit :=
  record (Sent s) ;;
  match fault env s with
  | Some msg => raise (Py.SnowparkSQLException msg)
  | None => ret tt
  end.

(** Function to fetch documents via Cortex AI search *)
Definition fetch_documents_cortex (query_text : pystr) : M (list document) :=
  catch
    (session_sql (CortexSearch query_text NUM_CHUNKS) ;;
     let data := cortex_search env query_text NUM_CHUNKS in
     ret (if Py.truthy data then map DOCUMENTS data else []))
    (fun _ => ret []).

(** Function to fetch documents directly via SQL query *)
Definition fetch_documents_sql (query_text : pystr) : M (list document) :=
  catch
    (session_sql (ContainsSearch query_text NUM_CHUNKS) ;;
     let data := contains_search env query_text NUM_CHUNKS in
     ret (if negb (Py.empty data) then data else []))
    (fun e =>
       st_error ($"Error fetching documents using SQL search: "
                 ++ Py.str_of_exn e) ;;
       ret []).

Definition MODEL := $"mistral-large2".

Definition prompt_of (context : pystr) : pystr :=
  [10%N]
  ++ $"    You are an expert assistant providing insights based on the following context:"
  ++ [10%N]
  ++ $"    Context: " ++ context ++ [10%N]
  ++ $"    Question: What are the key resistance mechanisms in prostate cancer related to AR-V7 and other therapies?"
  ++ [10%N]
  ++ $"    Answer:" ++ [10%N]
  ++ $"    ".

(** Function to generate insights using Mistral LLM *)
Definition generate_insights (context : pystr) : M pystr :=
  if negb (Py.truthy (Py.strip context)) then
    ret $"No valid context provided for generating insights."
  else
    let prompt := prompt_of context in
    catch
      (session_sql (CortexComplete MODEL prompt) ;;
       let result := cortex_complete env MODEL prompt in
       match result with
       | r :: _ => ret (RESPONSE r)
       | [] => ret $"No response generated."
       end)
      (fun e => ret ($"Error generating insights: " ++ Py.str_of_exn e)).

(** Function to log the query and retrieve the QUERYID *)
Definition log_query_and_get_query_id (query_text : pystr) (user_id : Z)
  : M (option Z) :=
  catch
    (session_sql (InsertQuery query_text user_id) ;;
     update (Sql.insert_query query_text user_id) ;;
     session_sql (SelectMaxQueryId query_text user_id) ;;
     result <- read (fun s =>
                 [ {| QUERYID := Sql.select_max_queryid query_text user_id s |} ]) ;;
     match result with
     | r :: _ => ret (QUERYID r)
     | [] => ret None
     end)
    (fun e =>
       st_error ($"Error logging query: " ++ Py.str_of_exn e) ;;
       ret None).

(** Function to log insights into the INSIGHTS table *)
Definition log_insights (insight_text : pystr) (query_id : option Z) : M unit :=
  catch
    (session_sql (InsertInsight insight_text query_id) ;;
     update (Sql.insert_insight insight_text query_id) ;;
     st_success $"Insights logged successfully!")
    (fun e => st_error ($"Error logging insights: " ++ Py.str_of_exn e)).

(** The two-tier fetch of the "Fetch and Analyze" handler: Cortex AI
    search first, SQL search when it gave nothing. *)
Definition fetch_documents (query : pystr) : M (list document) :=
  documents <- fetch_documents_cortex query ;;
  if negb (Py.truthy documents) then fetch_documents_sql query
  else ret documents.

Definition contents_of (documents : list document) : list pystr :=
  map (fun doc => Py.get doc $"CONTENT" Py.empty_str) documents.

(** The "Fetch and Analyze" handler, first half: the branches that
    assign [query_id] and [context].  The result is what each name is
    bound to afterwards; [context] is unbound ([None]) where no
    assignment to it is reached. *)
Definition resolve_context (query custom_context : pystr)
  : M (option Z * option pystr) :=
  if negb (Py.truthy custom_context) then
    query_id <- log_query_and_get_query_id query 1 ;;
    if Py.truthy_id query_id then
      with_spinner $"Retrieving documents..."
        (documents <- fetch_documents query ;;
         if Py.truthy documents then
           st_markdown $"### Retrieved Documents" ;;
           st_json documents ;;
           ret (query_id, Some (Py.str_join [10%N] (contents_of documents)))
         else
           ret (query_id, Some Py.empty_str))
    else
      ret (query_id, None)
  else
    ret (None, Some custom_context).

(** Second half: [if context.strip(): ... else: ...] *)
Definition analyze (query_id : option Z) (context : option pystr) : M unit :=
  context <- name_lookup $"context" context ;;
  if Py.truthy (Py.strip context) then
    with_spinner $"Generating insights using Mistral LLM..."
      (insights <- generate_insights context ;;
       st_markdown $"### Generated Insights" ;;
       st_write insights ;;
       if Py.truthy_id query_id then log_insights insights query_id
       else ret tt)
  else
    st_warning $"No valid context found or provided.".

(** [if st.button("Fetch and Analyze"):] with the two inputs of the
    page. *)
Definition fetch_and_analyze (query custom_context : pystr) : M unit :=
  if Py.truthy query || Py.truthy custom_context then
    '(query_id, context) <- resolve_context query custom_context ;;
    analyze query_id context
  else
    st_warning $"Please enter a query or input your own context.".

(** [if st.button("Submit Feedback"):] *)
Definition submit_feedback (feedback_text feedback_type : pystr) : M unit :=
  if Py.truthy feedback_text then
    catch
      (session_sql SelectLatestInsightId ;;
       rows <- read (fun s => map (fun i => {| INSIGHTID := i |})
                                  (Sql.select_latest_insightid s)) ;;
       r <- first_row rows ;;
       let insight_id := INSIGHTID r in
       session_sql (InsertFeedback feedback_text feedback_type insight_id) ;;
       update (Sql.insert_feedback feedback_text feedback_type insight_id) ;;
       st_success $"Feedback submitted successfully!")
      (fun e => st_error ($"Error submitting feedback: " ++ Py.str_of_exn e))
  else
    st_warning $"Please provide feedback before submitting.".

(** [if st.button("View Feedback Logs"):] *)
Definition view_feedback_logs : M unit :=
  with_spinner $"Loading feedback logs..."
    (catch
       (session_sql SelectFeedbackLogs ;;
        logs <- read Sql.select_feedback_logs ;;
        if negb (Py.empty logs) then
          st_markdown $"### Feedback Logs" ;;
          st_dataframe logs
        else
          st_write $"No feedback records found.")
       (fun e => st_error ($"Error fetching feedback logs: "
                           ++ Py.str_of_exn e))).

End App.

(* ================================================================== *)
(** ** Reading a run *)
(* ================================================================== *)

(** The world after statement [s] reached the session, and after the
    page showed [e]. *)
Definition sent (s : stmt) (w : World) : World :=
  {| store := store w; events := events w ++ [Sent s] |}.

Definition shown (e : element) (w : World) : World :=
  {| store := store w; events := events w ++ [Shown e] |}.

(** What a run left on the page, oldest first. *)
Fixpoint page (evs : list event) : list element :=
  match evs with
  | [] => []
  | Shown e :: evs' => e :: page evs'
  | Sent _ :: evs' => page evs'
  end.

(** One call of [log_query_and_get_query_id], of [generate_insights]
    on a context it accepts, and of [log_insights] each sends its first
    statement exactly once; these recognise them. *)
Definition is_log_query (ev : event) : bool :=
  match ev with Sent (InsertQuery _ _) => true | _ => false end.

Definition is_generate (ev : event) : bool :=
  match ev with Sent (CortexComplete _ _) => true | _ => false end.

Definition is_log_insight (ev : event) : bool :=
  match ev with Sent (InsertInsight _ _) => true | _ => false end.

Definition is_cortex_search (ev : event) : bool :=
  match ev with Sent (CortexSearch _ _) => true | _ => false end.

Definition is_contains_search (ev : event) : bool :=
  match ev with Sent (ContainsSearch _ _) => true | _ => false end.

Definition calls (p : event -> bool) (evs : list event) : nat :=
  List.length (filter p evs).

(** Cortex search gave nothing: its statement failed, or ran and
    answered no row. *)
Definition cortex_gave_nothing (env : Env) (query_text : pystr) : Prop :=
  fault env (CortexSearch query_text NUM_CHUNKS) <> None
  \/ cortex_search env query_text NUM_CHUNKS = [].

(** Every feedback row references exactly one insight row. *)
Definition references_one_insight (s : Store) : Prop :=
  forall fl, In fl (FEEDBACKLOGS s) ->
             List.length (filter (Sql.matches fl) (INSIGHTS s)) = 1%nat.

(** Keys descending along a list, ties allowed. *)
Definition descending_by {A : Type} (key : A -> Z) (l : list A) : Prop :=
  StronglySorted (fun a b => key b <= key a) l.

(** [logged_at] descending along a list of view records, with and
    without ties. *)
Definition descending (logs : list Logs.row) : Prop :=
  descending_by Logs.LOGGEDAT logs.

Definition strictly_descending (logs : list Logs.row) : Prop :=
  StronglySorted (fun a b => Logs.LOGGEDAT b < Logs.LOGGEDAT a) logs.

(* ================================================================== *)
(** ** Concrete runs *)
(* ================================================================== *)

Module Runs.

Definition fresh_store : Store :=
  {| QUERIES := []; INSIGHTS := []; FEEDBACKLOGS := [];
     QUERYID_SEQ := 1; INSIGHTID_SEQ := 1; NOW := 100 |}.

Definition w0 : World := {| store := fresh_store; events := [] |}.

Definition doc (title content : pystr) : document :=
  [ ($"TITLE", title); ($"CONTENT", content) ].

(** Services that answer and statements that run. *)
Definition healthy : Env :=
  {| fault := fun _ => None;
     cortex_search := fun _ _ =>
       [ {| DOCUMENTS := doc $"Splice variants" $"AR-V7 lacks the ligand-binding domain." |};
         {| DOCUMENTS := doc $"Enzalutamide" $"Resistance follows AR-V7 expression." |} ];
     contains_search := fun _ _ => [];
     cortex_complete := fun _ _ => [ {| RESPONSE := $"AR-V7 drives resistance." |} ] |}.

(** The same, with two documents that carry no text. *)
Definition blank_documents : Env :=
  {| fault := fun _ => None;
     cortex_search := fun _ _ =>
       [ {| DOCUMENTS := doc $"Untitled" Py.empty_str |};
         {| DOCUMENTS := [ ($"TITLE", $"No content") ] |} ];
     contains_search := fun _ _ => [];
     cortex_complete := fun _ _ => [ {| RESPONSE := $"AR-V7 drives resistance." |} ] |}.

(** Both searches fail. *)
Definition searches_down : Env :=
  {| fault := fun s =>
       match s with
       | CortexSearch _ _ => Some $"Unknown function SNOWFLAKE.CORTEX.SEARCH"
       | ContainsSearch _ _ => Some $"Table DOCUMENTS does not exist"
       | _ => None
       end;
     cortex_search := fun _ _ => [];
     contains_search := fun _ _ => [];
     cortex_complete := fun _ _ => [ {| RESPONSE := $"AR-V7 drives resistance." |} ] |}.

(** The insert into QUERIES fails. *)
Definition queries_down : Env :=
  {| fault := fun s =>
       match s with
       | InsertQuery _ _ => Some $"Table QUERIES does not exist"
       | _ => None
       end;
     cortex_search := cortex_search healthy;
     contains_search := fun _ _ => [];
     cortex_complete := cortex_complete healthy |}.

(** The completion endpoint fails; the one below answers no row. *)
Definition complete_down : Env :=
  {| fault := fun s =>
       match s with
       | CortexComplete _ _ => Some $"Model unavailable"
       | _ => None
       end;
     cortex_search := cortex_search healthy;
     contains_search := fun _ _ => [];
     cortex_complete := fun _ _ => [] |}.

Definition complete_silent : Env :=
  {| fault := fun _ => None;
     cortex_search := cortex_search healthy;
     contains_search := fun _ _ => [];
     cortex_complete := fun _ _ => [] |}.

(** Cortex search finds nothing, the CONTAINS search one document. *)
Definition keyword_only : Env :=
  {| fault := fun _ => None;
     cortex_search := fun _ _ => [];
     contains_search := fun _ _ => [ doc $"Review" $"AR-V7 and taxanes." ];
     cortex_complete := cortex_complete healthy |}.

Definition insight (id : Z) (text : pystr) (at_ : timestamp) : Insights.row :=
  {| Insights.INSIGHTID := id; Insights.INSIGHTTEXT := text;
     Insights.QUERYID := None; Insights.GENERATEDAT := at_ |}.

Definition feedback (details type : pystr) (id : Z) (at_ : timestamp)
  : Feedback.row :=
  {| Feedback.FEEDBACKDETAILS := details; Feedback.FEEDBACKTYPE := type;
     Feedback.INSIGHTID := id; Feedback.LOGGEDAT := at_ |}.

(** Three insights, the second the latest. *)
Definition with_insights : Store :=
  {| QUERIES := [];
     INSIGHTS := [ insight 1 $"first" 10; insight 2 $"second" 30;
                   insight 3 $"third" 20 ];
     FEEDBACKLOGS := [];
     QUERYID_SEQ := 1; INSIGHTID_SEQ := 4; NOW := 100 |}.

(** Three feedback rows: two logged at the same instant, and one
    whose insight is not in the table. *)
Definition tied_feedback : Store :=
  {| QUERIES := [];
     INSIGHTS := [ insight 1 $"first" 10 ];
     FEEDBACKLOGS := [ feedback $"clear" $"Positive" 1 50;
                       feedback $"vague" $"Negative" 1 50;
                       feedback $"fine" $"Neutral" 2 60 ];
     QUERYID_SEQ := 1; INSIGHTID_SEQ := 2; NOW := 100 |}.

(** Two feedback rows on one insight, logged at different instants. *)
Definition two_feedback : Store :=
  {| QUERIES := [];
     INSIGHTS := [ insight 1 $"first" 10 ];
     FEEDBACKLOGS := [ feedback $"clear" $"Positive" 1 50;
                       feedback $"vague" $"Negative" 1 70 ];
     QUERYID_SEQ := 1; INSIGHTID_SEQ := 2; NOW := 100 |}.

(** The re-select of the query id fails after the insert ran. *)
Definition select_down : Env :=
  {| fault := fun s =>
       match s with
       | SelectMaxQueryId _ _ => Some $"Warehouse suspended"
       | _ => None
       end;
     cortex_search := cortex_search healthy;
     contains_search := fun _ _ => [];
     cortex_complete := cortex_complete healthy |}.

(** The feedback-log query fails. *)
Definition logs_down : Env :=
  {| fault := fun s =>
       match s with
       | SelectFeedbackLogs => Some $"Table FEEDBACKLOGS does not exist"
       | _ => None
       end;
     cortex_search := cortex_search healthy;
     contains_search := fun _ _ => [];
     cortex_complete := cortex_complete healthy |}.

(** One query already logged under the text "AR-V7", by user 1. *)
Definition with_query : Store :=
  {| QUERIES := [ {| Queries.QUERYID := 4; Queries.QUERYTEXT := $"AR-V7";
                     Queries.CREATEDAT := 20; Queries.USERID := 1 |} ];
     INSIGHTS := [];
     FEEDBACKLOGS := [];
     QUERYID_SEQ := 5; INSIGHTID_SEQ := 1; NOW := 100 |}.


End Runs.

(** One step of a run: the page's and the session's primitives, then
    the monad. *)
Ltac run_step :=
  unfold st_error, st_warning, st_success, st_markdown, st_write,
         st_json, st_dataframe, with_spinner, name_lookup, first_row,
         session_sql;
  unfold record, read, update, sent, shown;
  cbn [bind ret raise catch Monad_M MonadExc_M fst snd store events].

(* ================================================================== *)
(** ** Whitespace *)
(* ================================================================== *)

Lemma forallb_rev {A : Type} (f : A -> bool) (l : list A) :
  forallb f (rev l) = forallb f l.
Proof.
  induction l as [|a l IH]; simpl; [reflexivity|].
  rewrite forallb_app, IH. simpl.
  rewrite andb_true_r. apply andb_comm.
Qed.

Lemma forallb_lstrip (s : pystr) :
  forallb Py.isspace (Py.lstrip s) = forallb Py.isspace s.
Proof.
  induction s as [|c s IH]; simpl; [reflexivity|].
  destruct (Py.isspace c) eqn:Hc; simpl.
  - exact IH.
  - rewrite Hc. reflexivity.
Qed.

Lemma truthy_lstrip (s : pystr) :
  Py.truthy (Py.lstrip s) = negb (forallb Py.isspace s).
Proof.
  induction s as [|c s IH]; simpl; [reflexivity|].
  destruct (Py.isspace c); simpl; [exact IH | reflexivity].
Qed.

Lemma truthy_rev {A : Type} (l : list A) : Py.truthy (rev l) = Py.truthy l.
Proof.
  destruct l as [|a l]; simpl; [reflexivity|].
  destruct (rev l); reflexivity.
Qed.

(** [s.strip()] is empty exactly when every code point of [s] is
    whitespace. *)
Lemma truthy_strip (s : pystr) :
  Py.truthy (Py.strip s) = negb (forallb Py.isspace s).
Proof.
  unfold Py.strip, Py.rstrip.
  rewrite truthy_rev, truthy_lstrip, forallb_rev, forallb_lstrip.
  reflexivity.
Qed.

(* ================================================================== *)
(** ** The insight generator *)
(* ================================================================== *)

(** C6.  On a context that is empty or made of whitespace only,
    [generate_insights] returns the fixed sentence about the missing
    context and leaves the world as it found it: no statement reaches
    the session, so the completion endpoint is not called. *)
Theorem generate_insights_blank_context (env : Env) (context : pystr) (w : World) :
  forallb Py.isspace context = true ->
  generate_insights env context w
  = (inr $"No valid context provided for generating insights.", w).
Proof.
  intros Hblank. unfold generate_insights.
  rewrite truthy_strip, Hblank. reflexivity.
Qed.

Lemma generate_insights_blank_context_witness :
  generate_insights Runs.healthy Py.empty_str Runs.w0
  = (inr $"No valid context provided for generating insights.", Runs.w0)
  /\ generate_insights Runs.healthy $"   " Runs.w0
     = (inr $"No valid context provided for generating insights.", Runs.w0)
  /\ generate_insights Runs.healthy [10%N] Runs.w0
     = (inr $"No valid context provided for generating insights.", Runs.w0).
Proof.
  split; [|split].
  - apply (generate_insights_blank_context Runs.healthy Py.empty_str Runs.w0).
    reflexivity.
  - apply (generate_insights_blank_context Runs.healthy $"   " Runs.w0).
    reflexivity.
  - apply (generate_insights_blank_context Runs.healthy [10%N] Runs.w0).
    reflexivity.
Defined.

(** What [generate_insights] returns on a context it accepts. *)
Lemma generate_insights_run (env : Env) (context : pystr) (w : World) :
  forallb Py.isspace context = false ->
  let complete := CortexComplete MODEL (prompt_of context) in
  generate_insights env context w
  = (inr match fault env complete with
         | Some msg => $"Error generating insights: " ++ msg
         | None =>
             match cortex_complete env MODEL (prompt_of context) with
             | r :: _ => RESPONSE r
             | [] => $"No response generated."
             end
         end,
     sent complete w).
Proof.
  intros Hctx complete. unfold generate_insights.
  rewrite truthy_strip, Hctx. simpl negb. cbv iota.
  run_step. fold complete.
  destruct (fault env complete) as [msg|]; run_step; [reflexivity|].
  destruct (cortex_complete env MODEL (prompt_of context)); reflexivity.
Qed.

(** C7.  On a context with a code point that is not whitespace,
    [generate_insights] returns a string whatever the session does: the
    result is never an exception, and when the completion statement
    fails with message [msg] the string returned is
    "Error generating insights: " followed by [msg]. *)
Theorem generate_insights_never_raises (env : Env) (context : pystr) (w : World) :
  forallb Py.isspace context = false ->
  let complete := CortexComplete MODEL (prompt_of context) in
  (exists insights : pystr,
      generate_insights env context w = (inr insights, sent complete w))
  /\ (forall msg, fault env complete = Some msg ->
        generate_insights env context w
        = (inr ($"Error generating insights: " ++ msg), sent complete w)).
Proof.
  intros Hctx complete.
  pose proof (generate_insights_run env context w Hctx) as Hrun.
  cbv zeta in Hrun. fold complete in Hrun.
  split.
  - eexists. exact Hrun.
  - intros msg Hmsg. rewrite Hrun, Hmsg. reflexivity.
Qed.

Lemma generate_insights_never_raises_witness :
  (exists insights : pystr,
      generate_insights Runs.complete_down $"AR-V7" Runs.w0
      = (inr insights, sent (CortexComplete MODEL (prompt_of $"AR-V7")) Runs.w0))
  /\ generate_insights Runs.complete_down $"AR-V7" Runs.w0
     = (inr $"Error generating insights: Model unavailable",
        sent (CortexComplete MODEL (prompt_of $"AR-V7")) Runs.w0).
Proof.
  destruct (generate_insights_never_raises Runs.complete_down $"AR-V7" Runs.w0
              eq_refl) as [Hret Herr].
  split; [exact Hret | exact (Herr _ eq_refl)].
Defined.

(** C10.  On a context with a code point that is not whitespace, when
    the completion statement runs and answers no row,
    [generate_insights] returns "No response generated." and raises
    nothing. *)
Theorem generate_insights_no_rows (env : Env) (context : pystr) (w : World) :
  forallb Py.isspace context = false ->
  let complete := CortexComplete MODEL (prompt_of context) in
  fault env complete = None ->
  cortex_complete env MODEL (prompt_of context) = [] ->
  generate_insights env context w
  = (inr $"No response generated.", sent complete w).
Proof.
  intros Hctx complete Hrun Hrows.
  rewrite (generate_insights_run env context w Hctx).
  fold complete. rewrite Hrun, Hrows. reflexivity.
Qed.

Lemma generate_insights_no_rows_witness :
  generate_insights Runs.complete_silent $"AR-V7" Runs.w0
  = (inr $"No response generated.",
     sent (CortexComplete MODEL (prompt_of $"AR-V7")) Runs.w0).
Proof.
  apply (generate_insights_no_rows Runs.complete_silent $"AR-V7" Runs.w0);
    reflexivity.
Defined.

(* ================================================================== *)
(** ** The document fetch *)
(* ================================================================== *)

Lemma fetch_documents_cortex_nothing (env : Env) (query_text : pystr) (w : World) :
  cortex_gave_nothing env query_text ->
  fetch_documents_cortex env query_text w
  = (inr [], sent (CortexSearch query_text NUM_CHUNKS) w).
Proof.
  intros Hnothing. unfold fetch_documents_cortex. run_step.
  destruct (fault env (CortexSearch query_text NUM_CHUNKS)) as [msg|] eqn:Hf;
    run_step; [reflexivity|].
  destruct Hnothing as [Hfail | Hrows]; [congruence|].
  rewrite Hrows. reflexivity.
Qed.

Lemma fetch_documents_cortex_rows (env : Env) (query_text : pystr) (w : World)
    (r : cortex_row) (rows : list cortex_row) :
  fault env (CortexSearch query_text NUM_CHUNKS) = None ->
  cortex_search env query_text NUM_CHUNKS = r :: rows ->
  fetch_documents_cortex env query_text w
  = (inr (DOCUMENTS r :: map DOCUMENTS rows),
     sent (CortexSearch query_text NUM_CHUNKS) w).
Proof.
  intros Hrun Hrows. unfold fetch_documents_cortex. run_step.
  rewrite Hrun. run_step. rewrite Hrows. reflexivity.
Qed.

(** What the CONTAINS search returns and leaves behind. *)
Lemma fetch_documents_sql_run (env : Env) (query_text : pystr) (w : World) :
  fetch_documents_sql env query_text w
  = match fault env (ContainsSearch query_text NUM_CHUNKS) with
    | None => (inr (contains_search env query_text NUM_CHUNKS),
               sent (ContainsSearch query_text NUM_CHUNKS) w)
    | Some msg =>
        (inr [],
         shown (Error ($"Error fetching documents using SQL search: " ++ msg))
               (sent (ContainsSearch query_text NUM_CHUNKS) w))
    end.
Proof.
  unfold fetch_documents_sql. run_step.
  destruct (fault env (ContainsSearch query_text NUM_CHUNKS)) as [msg|];
    run_step; [reflexivity|].
  destruct (contains_search env query_text NUM_CHUNKS); reflexivity.
Qed.

(** With nothing from Cortex, the fetch is the CONTAINS search. *)
Lemma fetch_documents_fallback (env : Env) (query_text : pystr) (w : World) :
  cortex_gave_nothing env query_text ->
  fetch_documents env query_text w
  = fetch_documents_sql env query_text (sent (CortexSearch query_text 3) w).
Proof.
  intros Hnothing. unfold fetch_documents. cbn [bind Monad_M].
  rewrite (fetch_documents_cortex_nothing env query_text w Hnothing).
  reflexivity.
Qed.

(** C1.  When the Cortex search statement fails or answers no row, the
    fetch is the CONTAINS search run on the same query text with the
    same limit of 3, after the one Cortex statement: it returns what
    [fetch_documents_sql] returns and shows what [fetch_documents_sql]
    shows, which is nothing when the CONTAINS statement runs; no
    message of the Cortex failure reaches the page. *)
Theorem fetch_documents_falls_back (env : Env) (query_text : pystr) (w : World) :
  cortex_gave_nothing env query_text ->
  fetch_documents env query_text w
  = fetch_documents_sql env query_text (sent (CortexSearch query_text 3) w)
  /\ exists documents : list document,
       fst (fetch_documents env query_text w) = inr documents
       /\ events (snd (fetch_documents env query_text w))
          = events w
            ++ [ Sent (CortexSearch query_text 3);
                 Sent (ContainsSearch query_text 3) ]
            ++ match fault env (ContainsSearch query_text 3) with
               | None => []
               | Some msg =>
                   [ Shown (Error ($"Error fetching documents using SQL search: "
                                   ++ msg)) ]
               end
       /\ documents
          = match fault env (ContainsSearch query_text 3) with
            | None => contains_search env query_text 3
            | Some _ => []
            end.
Proof.
  intros Hnothing.
  pose proof (fetch_documents_fallback env query_text w Hnothing) as Hfetch.
  split; [exact Hfetch|].
  rewrite Hfetch, fetch_documents_sql_run. change NUM_CHUNKS with 3.
  destruct (fault env (ContainsSearch query_text 3)) as [msg|];
    eexists; cbn [fst snd sent shown events store];
    (split; [reflexivity|]); split; try reflexivity;
    rewrite <- !app_assoc; reflexivity.
Qed.

Lemma fetch_documents_falls_back_witness :
  fetch_documents Runs.searches_down $"AR-V7" Runs.w0
  = (inr [],
     {| store := Runs.fresh_store;
        events :=
          [ Sent (CortexSearch $"AR-V7" 3);
            Sent (ContainsSearch $"AR-V7" 3);
            Shown (Error $"Error fetching documents using SQL search: Table DOCUMENTS does not exist") ]
     |})
  /\ fetch_documents Runs.keyword_only $"AR-V7" Runs.w0
     = (inr [ Runs.doc $"Review" $"AR-V7 and taxanes." ],
        {| store := Runs.fresh_store;
           events := [ Sent (CortexSearch $"AR-V7" 3);
                       Sent (ContainsSearch $"AR-V7" 3) ] |}).
Proof.
  split.
  - assert (Hdown : cortex_gave_nothing Runs.searches_down $"AR-V7")
      by (left; discriminate).
    destruct (fetch_documents_falls_back Runs.searches_down $"AR-V7"
                Runs.w0 Hdown) as [Hfetch _].
    rewrite Hfetch. vm_compute. reflexivity.
  - assert (Hnone : cortex_gave_nothing Runs.keyword_only $"AR-V7")
      by (right; reflexivity).
    destruct (fetch_documents_falls_back Runs.keyword_only $"AR-V7"
                Runs.w0 Hnone) as [Hfetch _].
    rewrite Hfetch. vm_compute. reflexivity.
Defined.

(* ================================================================== *)
(** ** The audit log writer *)
(* ================================================================== *)

(** A call that returned an id went through both statements. *)
Lemma log_query_returned_id (env : Env) (query_text : pystr) (user_id : Z)
    (w w1 : World) (qid : Z) :
  log_query_and_get_query_id env query_text user_id w = (inr (Some qid), w1) ->
  w1 = {| store := Sql.insert_query query_text user_id (store w);
          events := events w ++ [ Sent (InsertQuery query_text user_id);
                                  Sent (SelectMaxQueryId query_text user_id) ] |}
  /\ Sql.select_max_queryid query_text user_id
       (Sql.insert_query query_text user_id (store w)) = Some qid.
Proof.
  unfold log_query_and_get_query_id. run_step.
  destruct (fault env (InsertQuery query_text user_id)); run_step;
    [intros H; discriminate H|].
  destruct (fault env (SelectMaxQueryId query_text user_id)); run_step;
    [intros H; discriminate H|].
  rewrite <- app_assoc. cbn [app].
  intros H. injection H as Hid Hw. split; [symmetry; exact Hw | exact Hid].
Qed.

(** A call whose first statement fails reports it and returns [None]. *)
Lemma log_query_insert_fails (env : Env) (query_text : pystr) (user_id : Z)
    (w : World) (msg : pystr) :
  fault env (InsertQuery query_text user_id) = Some msg ->
  log_query_and_get_query_id env query_text user_id w
  = (inr None,
     shown (Error ($"Error logging query: " ++ msg))
           (sent (InsertQuery query_text user_id) w)).
Proof.
  intros Hfail. unfold log_query_and_get_query_id. run_step.
  rewrite Hfail. run_step. reflexivity.
Qed.

Lemma log_insights_run (env : Env) (insight_text : pystr) (query_id : option Z)
    (w : World) :
  log_insights env insight_text query_id w
  = match fault env (InsertInsight insight_text query_id) with
    | None =>
        (inr tt,
         {| store := Sql.insert_insight insight_text query_id (store w);
            events := events w
                      ++ [ Sent (InsertInsight insight_text query_id);
                           Shown (Success $"Insights logged successfully!") ] |})
    | Some msg =>
        (inr tt,
         {| store := store w;
            events := events w
                      ++ [ Sent (InsertInsight insight_text query_id);
                           Shown (Error ($"Error logging insights: " ++ msg)) ] |})
    end.
Proof.
  unfold log_insights. run_step.
  destruct (fault env (InsertInsight insight_text query_id)); run_step;
    rewrite <- app_assoc; reflexivity.
Qed.

(* ================================================================== *)
(** ** The "Fetch and Analyze" handler *)
(* ================================================================== *)

Lemma not_blank_truthy (s : pystr) :
  forallb Py.isspace s = false -> Py.truthy s = true.
Proof. destruct s; [discriminate | reflexivity]. Qed.

Lemma analyze_unbound (env : Env) (query_id : option Z) (w : World) :
  analyze env query_id None w = (inl (Py.NameError $"context"), w).
Proof. reflexivity. Qed.

Lemma analyze_blank (env : Env) (query_id : option Z) (context : pystr)
    (w : World) :
  forallb Py.isspace context = true ->
  analyze env query_id (Some context) w
  = (inr tt, shown (Warning $"No valid context found or provided.") w).
Proof.
  intros Hblank. unfold analyze. run_step.
  rewrite truthy_strip, Hblank. reflexivity.
Qed.

Lemma analyze_context (env : Env) (query_id : option Z) (context : pystr)
    (w : World) :
  forallb Py.isspace context = false ->
  exists insights : pystr,
    generate_insights env context w
    = (inr insights, sent (CortexComplete MODEL (prompt_of context)) w)
    /\ analyze env query_id (Some context) w
       = (if Py.truthy_id query_id then log_insights env insights query_id
          else ret tt)
           {| store := store w;
              events := events w
                        ++ [ Sent (CortexComplete MODEL (prompt_of context));
                             Shown (Markdown $"### Generated Insights");
                             Shown (Write insights) ] |}.
Proof.
  intros Hctx.
  pose proof (generate_insights_run env context w Hctx) as Hgen.
  cbv zeta in Hgen.
  eexists. split; [exact Hgen|].
  unfold analyze. run_step.
  rewrite truthy_strip, Hctx. cbn [negb]. cbv beta.
  rewrite Hgen. run_step.
  rewrite <- !app_assoc. reflexivity.
Qed.

(** The handler with a query whose logging returns nothing it can use:
    [context] is never assigned and reading it raises. *)
Lemma fetch_and_analyze_unbound_context (env : Env) (query : pystr)
    (w w1 : World) (query_id : option Z) :
  Py.truthy query = true ->
  log_query_and_get_query_id env query 1 w = (inr query_id, w1) ->
  Py.truthy_id query_id = false ->
  fetch_and_analyze env query Py.empty_str w = (inl (Py.NameError $"context"), w1).
Proof.
  intros Hq Hlog Hid. unfold fetch_and_analyze, resolve_context.
  rewrite Hq. change (Py.truthy Py.empty_str) with false. cbn [orb negb].
  cbn [bind Monad_M]. rewrite Hlog, Hid. reflexivity.
Qed.

(** C2.  The handler run on the query "x" with no custom context while
    the insert into QUERIES fails: the failure is reported on the page,
    and then the run ends in [NameError] for the name [context], which
    nothing catches. *)
Theorem fetch_and_analyze_crashes_when_query_log_fails :
  fetch_and_analyze Runs.queries_down $"x" Py.empty_str Runs.w0
  = (inl (Py.NameError $"context"),
     {| store := Runs.fresh_store;
        events :=
          [ Sent (InsertQuery $"x" 1);
            Shown (Error $"Error logging query: Table QUERIES does not exist") ]
     |}).
Proof. vm_compute. reflexivity. Qed.

(** The first half of the handler on scenario A: the query is logged,
    the Cortex search answers two documents, and [context] is bound to
    their contents joined by a newline. *)
Lemma resolve_context_two_documents (env : Env) (query : pystr) (w w1 : World)
    (qid : Z) (d1 d2 : document) :
  log_query_and_get_query_id env query 1 w = (inr (Some qid), w1) ->
  qid <> 0 ->
  fault env (CortexSearch query NUM_CHUNKS) = None ->
  cortex_search env query NUM_CHUNKS
  = [ {| DOCUMENTS := d1 |}; {| DOCUMENTS := d2 |} ] ->
  fetch_documents env query w1
  = (inr [d1; d2], sent (CortexSearch query 3) w1)
  /\ resolve_context env query Py.empty_str w
     = (inr (Some qid, Some (Py.str_join [10%N] (contents_of [d1; d2]))),
        {| store := store w1;
           events := events w1
                     ++ [ Sent (CortexSearch query 3);
                          Shown (Markdown $"### Retrieved Documents");
                          Shown (Json [d1; d2]) ] |}).
Proof.
  intros Hlog Hid Hrun Hrows.
  assert (Hfetch : fetch_documents env query w1
                   = (inr [d1; d2], sent (CortexSearch query 3) w1)).
  { unfold fetch_documents. cbn [bind Monad_M].
    rewrite (fetch_documents_cortex_rows env query w1 _ _ Hrun Hrows).
    reflexivity. }
  split; [exact Hfetch|].
  unfold resolve_context.
  change (Py.truthy Py.empty_str) with false. cbn [negb].
  cbn [bind Monad_M]. rewrite Hlog.
  unfold Py.truthy_id. rewrite (proj2 (Z.eqb_neq qid 0) Hid).
  cbn [negb]. unfold with_spinner. cbn [bind Monad_M].
  rewrite Hfetch. cbn [Py.truthy]. run_step.
  rewrite <- !app_assoc. reflexivity.
Qed.

(** C3, as the code has it.  A run with a non-empty query, no custom
    context, a query log that returns a non-zero id [qid], and a Cortex
    search that answers two documents whose contents, joined by a
    newline, are not all whitespace: the fetch returns the two
    documents, [context] is their CONTENT values joined by a newline,
    and the run sends, in this order, the two statements of one
    [log_query_and_get_query_id], the Cortex search, one completion on
    that context, and one insert of the returned insight with [qid];
    each of the three functions is called once. *)
Theorem scenario_A (env : Env) (query : pystr) (w w1 : World) (qid : Z)
    (d1 d2 : document) :
  Py.truthy query = true ->
  log_query_and_get_query_id env query 1 w = (inr (Some qid), w1) ->
  qid <> 0 ->
  fault env (CortexSearch query NUM_CHUNKS) = None ->
  cortex_search env query NUM_CHUNKS
  = [ {| DOCUMENTS := d1 |}; {| DOCUMENTS := d2 |} ] ->
  let context := Py.get d1 $"CONTENT" Py.empty_str ++ [10%N] ++ Py.get d2 $"CONTENT" Py.empty_str in
  forallb Py.isspace context = false ->
  exists (insights : pystr) (outcome : element) (w2 : World),
    let trace :=
      [ Sent (InsertQuery query 1);
        Sent (SelectMaxQueryId query 1);
        Sent (CortexSearch query 3);
        Shown (Markdown $"### Retrieved Documents");
        Shown (Json [d1; d2]);
        Sent (CortexComplete MODEL (prompt_of context));
        Shown (Markdown $"### Generated Insights");
        Shown (Write insights);
        Sent (InsertInsight insights (Some qid));
        Shown outcome ] in
    fst (fetch_documents env query w1) = inr [d1; d2]
    /\ fst (resolve_context env query Py.empty_str w) = inr (Some qid, Some context)
    /\ fst (generate_insights env context (snd (resolve_context env query Py.empty_str w)))
       = inr insights
    /\ fetch_and_analyze env query Py.empty_str w = (inr tt, w2)
    /\ events w2 = events w ++ trace
    /\ calls is_log_query trace = 1%nat
    /\ calls is_generate trace = 1%nat
    /\ calls is_log_insight trace = 1%nat
    /\ (outcome = Success $"Insights logged successfully!"
        \/ exists msg, outcome = Error ($"Error logging insights: " ++ msg)).
Proof.
  intros Hq Hlog Hid Hrun Hrows context Hctx.
  destruct (resolve_context_two_documents env query w w1 qid d1 d2
              Hlog Hid Hrun Hrows) as [Hfetch Hresolve].
  change (Py.str_join [10%N] (contents_of [d1; d2])) with context in Hresolve.
  destruct (log_query_returned_id env query 1 w w1 qid Hlog) as [Hw1 _].
  set (wm := {| store := store w1;
                events := events w1
                          ++ [ Sent (CortexSearch query 3);
                               Shown (Markdown $"### Retrieved Documents");
                               Shown (Json [d1; d2]) ] |}) in *.
  destruct (analyze_context env (Some qid) context wm Hctx)
    as [insights [Hgen Hanalyze]].
  assert (Hrun_all : fetch_and_analyze env query Py.empty_str w
                     = analyze env (Some qid) (Some context) wm).
  { unfold fetch_and_analyze. rewrite Hq. cbn [orb].
    cbn [bind Monad_M]. rewrite Hresolve. reflexivity. }
  unfold Py.truthy_id in Hanalyze.
  rewrite (proj2 (Z.eqb_neq qid 0) Hid) in Hanalyze. cbn [negb] in Hanalyze.
  rewrite log_insights_run in Hanalyze.
  assert (Hevents : events wm
                    = events w
                      ++ [ Sent (InsertQuery query 1);
                           Sent (SelectMaxQueryId query 1);
                           Sent (CortexSearch query 3);
                           Shown (Markdown $"### Retrieved Documents");
                           Shown (Json [d1; d2]) ]).
  { unfold wm. cbn [events]. rewrite Hw1. cbn [events].
    rewrite <- app_assoc. reflexivity. }
  pose proof (eq_trans Hrun_all Hanalyze) as Hdone.
  clear Hrun_all Hanalyze.
  assert (Hshape : forall outcome w2,
             fetch_and_analyze env query Py.empty_str w = (inr tt, w2) ->
             events w2
             = events wm
               ++ [ Sent (CortexComplete MODEL (prompt_of context));
                    Shown (Markdown $"### Generated Insights");
                    Shown (Write insights);
                    Sent (InsertInsight insights (Some qid));
                    Shown outcome ] ->
             (outcome = Success $"Insights logged successfully!"
              \/ exists msg, outcome = Error ($"Error logging insights: " ++ msg)) ->
             exists (insights : pystr) (outcome : element) (w2 : World),
               let trace :=
                 [ Sent (InsertQuery query 1);
                   Sent (SelectMaxQueryId query 1);
                   Sent (CortexSearch query 3);
                   Shown (Markdown $"### Retrieved Documents");
                   Shown (Json [d1; d2]);
                   Sent (CortexComplete MODEL (prompt_of context));
                   Shown (Markdown $"### Generated Insights");
                   Shown (Write insights);
                   Sent (InsertInsight insights (Some qid));
                   Shown outcome ] in
               fst (fetch_documents env query w1) = inr [d1; d2]
               /\ fst (resolve_context env query Py.empty_str w)
                  = inr (Some qid, Some context)
               /\ fst (generate_insights env context
                         (snd (resolve_context env query Py.empty_str w)))
                  = inr insights
               /\ fetch_and_analyze env query Py.empty_str w = (inr tt, w2)
               /\ events w2 = events w ++ trace
               /\ calls is_log_query trace = 1%nat
               /\ calls is_generate trace = 1%nat
               /\ calls is_log_insight trace = 1%nat
               /\ (outcome = Success $"Insights logged successfully!"
                   \/ exists msg,
                        outcome = Error ($"Error logging insights: " ++ msg))).
  { intros outcome w2 Hall Hev Hout.
    exists insights, outcome, w2. cbv zeta.
    rewrite Hfetch, Hresolve. cbn [fst snd]. rewrite Hgen. cbn [fst].
    repeat (split; [reflexivity|]).
    split; [exact Hall|].
    split; [rewrite Hev, Hevents, <- app_assoc; reflexivity|].
    repeat (split; [reflexivity|]). exact Hout. }
  destruct (fault env (InsertInsight insights (Some qid))) as [msg|] eqn:Hins.
  - eapply Hshape; [exact Hdone | | right; exists msg; reflexivity].
    cbn [events store]. rewrite <- app_assoc. reflexivity.
  - eapply Hshape; [exact Hdone | | left; reflexivity].
    cbn [events store]. rewrite <- app_assoc. reflexivity.
Qed.

Lemma scenario_A_witness :
  exists (insights : pystr) (w2 : World),
    fetch_and_analyze Runs.healthy $"AR-V7 resistance" Py.empty_str Runs.w0 = (inr tt, w2)
    /\ fst (generate_insights Runs.healthy
              ($"AR-V7 lacks the ligand-binding domain." ++ [10%N]
               ++ $"Resistance follows AR-V7 expression.")
              (snd (resolve_context Runs.healthy $"AR-V7 resistance" Py.empty_str Runs.w0)))
       = inr insights
    /\ calls is_log_query (events w2) = 1%nat
    /\ calls is_generate (events w2) = 1%nat
    /\ calls is_log_insight (events w2) = 1%nat.
Proof.
  destruct (scenario_A Runs.healthy $"AR-V7 resistance" Runs.w0
              (snd (log_query_and_get_query_id Runs.healthy
                      $"AR-V7 resistance" 1 Runs.w0))
              1
              (Runs.doc $"Splice variants" $"AR-V7 lacks the ligand-binding domain.")
              (Runs.doc $"Enzalutamide" $"Resistance follows AR-V7 expression."))
    as (insights & outcome & w2 & _ & _ & Hgen & Hrun & Hev & Hq & Hg & Hi & _).
  - reflexivity.
  - vm_compute. reflexivity.
  - lia.
  - reflexivity.
  - reflexivity.
  - vm_compute. reflexivity.
  - exists insights, w2. rewrite Hev. cbn [Runs.w0 events app].
    repeat split; assumption.
Defined.

(** C3 as stated fails.  The query is logged with id 1 and the Cortex
    search answers two documents, one with an empty CONTENT and one
    with none: [context] is one newline, the handler takes it for no
    context, and neither [generate_insights] nor [log_insights] is
    called; the run ends on the warning. *)
Lemma scenario_A_documents_without_text :
  let query := $"AR-V7 resistance" in
  let run := fetch_and_analyze Runs.blank_documents query Py.empty_str Runs.w0 in
  Py.truthy query = true
  /\ fst (log_query_and_get_query_id Runs.blank_documents query 1 Runs.w0)
     = inr (Some 1)
  /\ fault Runs.blank_documents (CortexSearch query NUM_CHUNKS) = None
  /\ List.length (cortex_search Runs.blank_documents query NUM_CHUNKS) = 2%nat
  /\ fst (resolve_context Runs.blank_documents query Py.empty_str Runs.w0)
     = inr (Some 1, Some [10%N])
  /\ fst run = inr tt
  /\ calls is_generate (events (snd run)) = 0%nat
  /\ calls is_log_insight (events (snd run)) = 0%nat
  /\ page (events (snd run))
     = [ Markdown $"### Retrieved Documents";
         Json [ Runs.doc $"Untitled" Py.empty_str; [ ($"TITLE", $"No content") ] ];
         Warning $"No valid context found or provided." ].
Proof. vm_compute. repeat split; reflexivity. Qed.

(** C4, as the code has it.  A run with a custom context that has a
    code point that is not whitespace, whatever the query field holds:
    no query is logged, [query_id] is [None] and [context] is the custom
    context itself; the only statement sent is one completion on that
    context, its result is shown, and nothing is written to the store,
    so [log_insights] is not called. *)
Theorem scenario_B (env : Env) (query custom_context : pystr) (w : World) :
  forallb Py.isspace custom_context = false ->
  exists insights : pystr,
    let trace :=
      [ Sent (CortexComplete MODEL (prompt_of custom_context));
        Shown (Markdown $"### Generated Insights");
        Shown (Write insights) ] in
    resolve_context env query custom_context w
    = (inr (None, Some custom_context), w)
    /\ fst (generate_insights env custom_context w) = inr insights
    /\ fetch_and_analyze env query custom_context w
       = (inr tt, {| store := store w; events := events w ++ trace |})
    /\ calls is_log_query trace = 0%nat
    /\ calls is_generate trace = 1%nat
    /\ calls is_log_insight trace = 0%nat.
Proof.
  intros Hctx.
  pose proof (not_blank_truthy custom_context Hctx) as Hcc.
  destruct (analyze_context env None custom_context w Hctx)
    as [insights [Hgen Hanalyze]].
  exists insights. cbv zeta.
  assert (Hresolve : resolve_context env query custom_context w
                     = (inr (None, Some custom_context), w)).
  { unfold resolve_context. rewrite Hcc. reflexivity. }
  split; [exact Hresolve|].
  split; [rewrite Hgen; reflexivity|].
  split; [|repeat split; reflexivity].
  unfold fetch_and_analyze. rewrite Hcc, orb_true_r.
  cbn [bind Monad_M]. rewrite Hresolve. exact Hanalyze.
Qed.

Lemma scenario_B_witness :
  fetch_and_analyze Runs.healthy Py.empty_str $"some text" Runs.w0
  = (inr tt,
     {| store := Runs.fresh_store;
        events := [ Sent (CortexComplete MODEL (prompt_of $"some text"));
                    Shown (Markdown $"### Generated Insights");
                    Shown (Write $"AR-V7 drives resistance.") ] |}).
Proof.
  destruct (scenario_B Runs.healthy Py.empty_str $"some text" Runs.w0 eq_refl)
    as (insights & _ & Hgen & Hrun & _).
  rewrite Hrun. vm_compute in Hgen. injection Hgen as <-.
  vm_compute. reflexivity.
Defined.

(** C4 as stated fails.  A custom context of one space is not empty,
    yet the handler takes it for no context: [generate_insights] is not
    called and the page shows the warning instead of an insight. *)
Lemma scenario_B_blank_custom_context :
  let run := fetch_and_analyze Runs.healthy Py.empty_str $" " Runs.w0 in
  Py.truthy $" " = true
  /\ fst (resolve_context Runs.healthy Py.empty_str $" " Runs.w0) = inr (None, Some $" ")
  /\ fst run = inr tt
  /\ calls is_generate (events (snd run)) = 0%nat
  /\ page (events (snd run)) = [ Warning $"No valid context found or provided." ].
Proof. vm_compute. repeat split; reflexivity. Qed.

(** C5, as the code has it.  A run with a non-empty query, no custom
    context, a query log that returns a non-zero id, and both search
    statements failing: [context] is the empty string, no completion is
    sent, and the page shows two things, the error of the CONTAINS
    search and then the warning; the failure of the Cortex search is
    shown nowhere. *)
Theorem scenario_C (env : Env) (query : pystr) (w w1 : World) (qid : Z)
    (cortex_msg contains_msg : pystr) :
  Py.truthy query = true ->
  log_query_and_get_query_id env query 1 w = (inr (Some qid), w1) ->
  qid <> 0 ->
  fault env (CortexSearch query NUM_CHUNKS) = Some cortex_msg ->
  fault env (ContainsSearch query NUM_CHUNKS) = Some contains_msg ->
  let trace :=
    [ Sent (InsertQuery query 1);
      Sent (SelectMaxQueryId query 1);
      Sent (CortexSearch query 3);
      Sent (ContainsSearch query 3);
      Shown (Error ($"Error fetching documents using SQL search: "
                    ++ contains_msg));
      Shown (Warning $"No valid context found or provided.") ] in
  fst (resolve_context env query Py.empty_str w) = inr (Some qid, Some Py.empty_str)
  /\ fetch_and_analyze env query Py.empty_str w
     = (inr tt, {| store := store w1; events := events w ++ trace |})
  /\ calls is_generate trace = 0%nat
  /\ page trace
     = [ Error ($"Error fetching documents using SQL search: " ++ contains_msg);
         Warning $"No valid context found or provided." ].
Proof.
  intros Hq Hlog Hid Hcortex Hcontains trace.
  destruct (log_query_returned_id env query 1 w w1 qid Hlog) as [Hw1 _].
  assert (Hnothing : cortex_gave_nothing env query)
    by (left; rewrite Hcortex; discriminate).
  pose proof (fetch_documents_fallback env query w1 Hnothing) as Hfetch.
  rewrite fetch_documents_sql_run in Hfetch. rewrite Hcontains in Hfetch.
  assert (Hresolve :
            resolve_context env query Py.empty_str w
            = (inr (Some qid, Some Py.empty_str),
               shown (Error ($"Error fetching documents using SQL search: "
                             ++ contains_msg))
                     (sent (ContainsSearch query NUM_CHUNKS)
                           (sent (CortexSearch query 3) w1)))).
  { unfold resolve_context.
    change (Py.truthy Py.empty_str) with false. cbn [negb].
    cbn [bind Monad_M]. rewrite Hlog.
    unfold Py.truthy_id. rewrite (proj2 (Z.eqb_neq qid 0) Hid).
    cbn [negb]. unfold with_spinner. cbn [bind Monad_M].
    rewrite Hfetch. reflexivity. }
  split; [rewrite Hresolve; reflexivity|].
  split; [|split; reflexivity].
  unfold fetch_and_analyze. rewrite Hq. cbn [orb].
  cbn [bind Monad_M]. rewrite Hresolve.
  rewrite (analyze_blank env (Some qid) Py.empty_str _ eq_refl).
  unfold shown, sent. cbn [store events]. rewrite Hw1. cbn [store events].
  rewrite <- !app_assoc. reflexivity.
Qed.

Lemma scenario_C_witness :
  fetch_and_analyze Runs.searches_down $"x" Py.empty_str Runs.w0
  = (inr tt,
     {| store := Sql.insert_query $"x" 1 Runs.fresh_store;
        events :=
          [ Sent (InsertQuery $"x" 1);
            Sent (SelectMaxQueryId $"x" 1);
            Sent (CortexSearch $"x" 3);
            Sent (ContainsSearch $"x" 3);
            Shown (Error $"Error fetching documents using SQL search: Table DOCUMENTS does not exist");
            Shown (Warning $"No valid context found or provided.") ] |}).
Proof.
  destruct (scenario_C Runs.searches_down $"x" Runs.w0
              (snd (log_query_and_get_query_id Runs.searches_down $"x" 1 Runs.w0))
              1 $"Unknown function SNOWFLAKE.CORTEX.SEARCH"
              $"Table DOCUMENTS does not exist")
    as (_ & Hrun & _).
  - reflexivity.
  - vm_compute. reflexivity.
  - lia.
  - reflexivity.
  - reflexivity.
  - rewrite Hrun. vm_compute. reflexivity.
Defined.

(** C5 as stated fails.  With both searches failing, the warning is
    not the only thing the run leaves on the page: the error of the
    CONTAINS search is shown before it. *)
Lemma scenario_C_shows_search_error :
  let run := fetch_and_analyze Runs.searches_down $"x" Py.empty_str Runs.w0 in
  fst (log_query_and_get_query_id Runs.searches_down $"x" 1 Runs.w0)
  = inr (Some 1)
  /\ fault Runs.searches_down (CortexSearch $"x" NUM_CHUNKS) <> None
  /\ fault Runs.searches_down (ContainsSearch $"x" NUM_CHUNKS) <> None
  /\ fst (resolve_context Runs.searches_down $"x" Py.empty_str Runs.w0)
     = inr (Some 1, Some Py.empty_str)
  /\ calls is_generate (events (snd run)) = 0%nat
  /\ page (events (snd run))
     = [ Error $"Error fetching documents using SQL search: Table DOCUMENTS does not exist";
         Warning $"No valid context found or provided." ]
  /\ page (events (snd run)) <> [ Warning $"No valid context found or provided." ].
Proof.
  vm_compute. repeat split; try reflexivity; discriminate.
Qed.

(* ================================================================== *)
(** ** ORDER BY ... DESC *)
(* ================================================================== *)

Section OrderByFacts.

Context {A : Type} (key : A -> Z).

Lemma insert_desc_perm (x : A) (l : list A) :
  Permutation (x :: l) (Sql.insert_desc key x l).
Proof.
  induction l as [|y l IH]; simpl; [reflexivity|].
  destruct (key y <=? key x); [reflexivity|].
  rewrite perm_swap. constructor. exact IH.
Qed.

Lemma order_by_desc_perm (l : list A) :
  Permutation l (Sql.order_by_desc key l).
Proof.
  induction l as [|x l IH]; simpl; [constructor|].
  rewrite <- insert_desc_perm. constructor. exact IH.
Qed.

Lemma insert_desc_sorted (x : A) (l : list A) :
  descending_by key l -> descending_by key (Sql.insert_desc key x l).
Proof.
  unfold descending_by.
  induction 1 as [|y l Hsorted IH Hy]; simpl.
  - repeat constructor.
  - destruct (Z.leb_spec (key y) (key x)) as [Hle | Hlt].
    + constructor; [constructor; assumption|].
      constructor; [exact Hle|].
      eapply Forall_impl; [|exact Hy].
      cbv beta. intros z Hz. lia.
    + constructor; [exact IH|].
      rewrite <- insert_desc_perm.
      constructor; [lia | exact Hy].
Qed.

Lemma order_by_desc_sorted (l : list A) :
  descending_by key (Sql.order_by_desc key l).
Proof.
  induction l as [|x l IH]; simpl; [constructor|].
  apply insert_desc_sorted. exact IH.
Qed.

(** The first row of the ordering has a greatest key. *)
Lemma order_by_desc_head (l : list A) (x : A) (rest : list A) :
  Sql.order_by_desc key l = x :: rest ->
  In x l /\ forall y, In y l -> key y <= key x.
Proof.
  intros Hhead.
  pose proof (order_by_desc_perm l) as Hperm.
  pose proof (order_by_desc_sorted l) as Hsorted.
  rewrite Hhead in Hperm, Hsorted.
  split.
  - apply (Permutation_in x (Permutation_sym Hperm)). left. reflexivity.
  - intros y Hy. apply (Permutation_in y Hperm) in Hy.
    inversion Hsorted as [|? ? _ Hall]; subst.
    destruct Hy as [<- | Hy]; [lia|].
    rewrite Forall_forall in Hall. exact (Hall y Hy).
Qed.

Lemma order_by_desc_nil (l : list A) :
  Sql.order_by_desc key l = [] -> l = [].
Proof.
  intros Hnil. pose proof (order_by_desc_perm l) as Hperm.
  rewrite Hnil in Hperm. apply Permutation_sym, Permutation_nil in Hperm.
  exact Hperm.
Qed.

End OrderByFacts.

(* ================================================================== *)
(** ** The feedback-log view *)
(* ================================================================== *)

Lemma feedback_join_length (insights : list Insights.row)
    (rows : list Feedback.row) :
  (forall fl, In fl rows ->
              List.length (filter (Sql.matches fl) insights) = 1%nat) ->
  List.length
    (flat_map (fun fl => map (Sql.join_row fl)
                             (filter (Sql.matches fl) insights)) rows)
  = List.length rows.
Proof.
  induction rows as [|fl rows IH]; intros Hone; simpl; [reflexivity|].
  rewrite length_app, length_map, (Hone fl (or_introl eq_refl)).
  rewrite IH; [reflexivity|].
  intros fl' Hin. apply Hone. right. exact Hin.
Qed.

(** C8, as the code has it.  When its statement runs, the view shows
    the inner join of the feedback rows with the insight rows on the
    insight id, each record made of the feedback's details, type and
    logged_at and the insight's text, ordered by logged_at descending,
    records with equal logged_at following one another.  There are as
    many records as feedback rows when every feedback row references
    exactly one insight row.  Over no feedback rows the result is the
    empty sequence, and the page says that no records were found; it
    shows no error. *)
Theorem view_feedback_logs_join_descending (env : Env) (w : World) :
  fault env SelectFeedbackLogs = None ->
  let logs := Sql.select_feedback_logs (store w) in
  Permutation logs (Sql.feedback_join (store w))
  /\ descending logs
  /\ (references_one_insight (store w) ->
      List.length logs = List.length (FEEDBACKLOGS (store w)))
  /\ (FEEDBACKLOGS (store w) = [] -> logs = [])
  /\ view_feedback_logs env w
     = (inr tt,
        {| store := store w;
           events :=
             events w
             ++ Sent SelectFeedbackLogs
                :: (if Py.empty logs
                    then [ Shown (Write $"No feedback records found.") ]
                    else [ Shown (Markdown $"### Feedback Logs");
                           Shown (Dataframe logs) ]) |}).
Proof.
  intros Hrun logs.
  assert (Hperm : Permutation logs (Sql.feedback_join (store w))).
  { unfold logs, Sql.select_feedback_logs.
    apply Permutation_sym, order_by_desc_perm. }
  split; [exact Hperm|].
  split; [apply order_by_desc_sorted|].
  split.
  { intros Hone. rewrite (Permutation_length Hperm).
    apply feedback_join_length. exact Hone. }
  split.
  { intros Hnone. unfold logs, Sql.select_feedback_logs, Sql.feedback_join.
    rewrite Hnone. reflexivity. }
  unfold view_feedback_logs. run_step. rewrite Hrun. run_step.
  fold logs. destruct logs as [|r logs']; cbn [Py.empty Py.truthy negb];
    run_step; rewrite <- !app_assoc; reflexivity.
Qed.

Lemma view_feedback_logs_join_descending_witness :
  List.length (Sql.select_feedback_logs Runs.two_feedback) = 2%nat
  /\ view_feedback_logs Runs.healthy
       {| store := Runs.two_feedback; events := [] |}
     = (inr tt,
        {| store := Runs.two_feedback;
           events :=
             [ Sent SelectFeedbackLogs;
               Shown (Markdown $"### Feedback Logs");
               Shown (Dataframe
                        [ {| Logs.FEEDBACKDETAILS := $"vague";
                             Logs.FEEDBACKTYPE := $"Negative";
                             Logs.INSIGHTTEXT := $"first";
                             Logs.LOGGEDAT := 70 |};
                          {| Logs.FEEDBACKDETAILS := $"clear";
                             Logs.FEEDBACKTYPE := $"Positive";
                             Logs.INSIGHTTEXT := $"first";
                             Logs.LOGGEDAT := 50 |} ]) ] |})
  /\ view_feedback_logs Runs.healthy Runs.w0
     = (inr tt,
        {| store := Runs.fresh_store;
           events := [ Sent SelectFeedbackLogs;
                       Shown (Write $"No feedback records found.") ] |}).
Proof.
  destruct (view_feedback_logs_join_descending Runs.healthy
              {| store := Runs.two_feedback; events := [] |} eq_refl)
    as (_ & _ & Hcount & _ & Hview).
  destruct (view_feedback_logs_join_descending Runs.healthy Runs.w0 eq_refl)
    as (_ & _ & _ & _ & Hnone).
  split; [|split].
  - apply Hcount. intros fl [<- | [<- | []]]; reflexivity.
  - rewrite Hview. vm_compute. reflexivity.
  - rewrite Hnone. vm_compute. reflexivity.
Defined.

(** C8 as stated fails.  Of three feedback rows, one references an
    insight that is not in the table and two were logged at the same
    instant: the view returns two records, not three, and their
    logged_at values are equal, not strictly descending. *)
Lemma feedback_logs_dangling_and_tied :
  let logs := Sql.select_feedback_logs Runs.tied_feedback in
  List.length (FEEDBACKLOGS Runs.tied_feedback) = 3%nat
  /\ List.length logs = 2%nat
  /\ map Logs.LOGGEDAT logs = [50; 50]
  /\ ~ strictly_descending logs.
Proof.
  cbv zeta. repeat split.
  intros Hstrict. vm_compute in Hstrict.
  inversion Hstrict as [|? ? _ Hall]; subst.
  inversion Hall as [|? ? Hlt _]; subst.
  vm_compute in Hlt. discriminate Hlt.
Qed.

(* ================================================================== *)
(** ** The "Submit Feedback" handler *)
(* ================================================================== *)

(** C9.  Submitting feedback over a store with no insight row leaves
    the store as it was, so no feedback row is created, and the page
    shows one notice of the failure: an error when text was entered
    (the list of insight ids has no first element, or the statement
    itself failed), the request to enter text otherwise.  Over a store
    with insight rows, with text entered and the select running, the
    id taken is that of an insight row whose generated_at no other row
    exceeds; when the insert runs, the one row it adds to the feedback
    table carries that id, and when it fails the store is as it was. *)
Theorem submit_feedback_latest_insight (env : Env)
    (feedback_text feedback_type : pystr) (w : World) :
  (INSIGHTS (store w) = [] ->
   exists notice : list event,
     submit_feedback env feedback_text feedback_type w
     = (inr tt, {| store := store w; events := events w ++ notice |})
     /\ if Py.truthy feedback_text
        then exists msg,
               notice = [ Sent SelectLatestInsightId;
                          Shown (Error ($"Error submitting feedback: " ++ msg)) ]
        else notice = [ Shown (Warning $"Please provide feedback before submitting.") ])
  /\ (INSIGHTS (store w) <> [] ->
      Py.truthy feedback_text = true ->
      fault env SelectLatestInsightId = None ->
      exists latest : Insights.row,
        In latest (INSIGHTS (store w))
        /\ (forall i, In i (INSIGHTS (store w)) ->
                      Insights.GENERATEDAT i <= Insights.GENERATEDAT latest)
        /\ let insert := InsertFeedback feedback_text feedback_type
                           (Insights.INSIGHTID latest) in
           match fault env insert with
           | None =>
               exists w',
                 submit_feedback env feedback_text feedback_type w = (inr tt, w')
                 /\ FEEDBACKLOGS (store w')
                    = FEEDBACKLOGS (store w)
                      ++ [ {| Feedback.FEEDBACKDETAILS := feedback_text;
                              Feedback.FEEDBACKTYPE := feedback_type;
                              Feedback.INSIGHTID := Insights.INSIGHTID latest;
                              Feedback.LOGGEDAT := NOW (store w) |} ]
                 /\ events w'
                    = events w
                      ++ [ Sent SelectLatestInsightId; Sent insert;
                           Shown (Success $"Feedback submitted successfully!") ]
           | Some msg =>
               submit_feedback env feedback_text feedback_type w
               = (inr tt,
                  {| store := store w;
                     events :=
                       events w
                       ++ [ Sent SelectLatestInsightId; Sent insert;
                            Shown (Error ($"Error submitting feedback: "
                                          ++ msg)) ] |})
           end).
Proof.
  split.
  - intros Hnone. unfold submit_feedback.
    destruct (Py.truthy feedback_text).
    + run_step.
      destruct (fault env SelectLatestInsightId) as [msg|]; run_step.
      * eexists. split; [rewrite <- app_assoc; reflexivity|].
        eexists. reflexivity.
      * unfold Sql.select_latest_insightid. rewrite Hnone.
        cbn [Sql.order_by_desc firstn map]. run_step.
        eexists. split; [rewrite <- app_assoc; reflexivity|].
        eexists. reflexivity.
    + run_step. eexists. split; reflexivity.
  - intros Hsome Htext Hrun. unfold submit_feedback. rewrite Htext.
    destruct (Sql.order_by_desc Insights.GENERATEDAT (INSIGHTS (store w)))
      as [|latest rest] eqn:Hsorted.
    { apply order_by_desc_nil in Hsorted. contradiction. }
    destruct (order_by_desc_head Insights.GENERATEDAT _ _ _ Hsorted)
      as [Hin Hmax].
    exists latest. split; [exact Hin|]. split; [exact Hmax|].
    cbv zeta. run_step. rewrite Hrun. run_step.
    unfold Sql.select_latest_insightid. rewrite Hsorted.
    cbn [firstn map]. run_step. cbn [INSIGHTID].
    destruct (fault env (InsertFeedback feedback_text feedback_type
                           (Insights.INSIGHTID latest))) as [msg|];
      run_step.
    + rewrite <- !app_assoc. reflexivity.
    + eexists. split; [reflexivity|]. cbn [store events].
      split; [reflexivity|]. rewrite <- !app_assoc. reflexivity.
Qed.

Lemma submit_feedback_latest_insight_witness :
  submit_feedback Runs.healthy $"helpful" $"Positive" Runs.w0
  = (inr tt,
     {| store := Runs.fresh_store;
        events :=
          [ Sent SelectLatestInsightId;
            Shown (Error $"Error submitting feedback: list index out of range") ]
     |})
  /\ exists w',
       submit_feedback Runs.healthy $"helpful" $"Positive"
         {| store := Runs.with_insights; events := [] |} = (inr tt, w')
       /\ FEEDBACKLOGS (store w')
          = [ Runs.feedback $"helpful" $"Positive" 2 100 ].
Proof.
  split.
  - destruct (proj1 (submit_feedback_latest_insight Runs.healthy
                       $"helpful" $"Positive" Runs.w0) eq_refl)
      as (notice & Hrun & _).
    rewrite Hrun. vm_compute in Hrun. injection Hrun as <-.
    vm_compute. reflexivity.
  - destruct (proj2 (submit_feedback_latest_insight Runs.healthy
                       $"helpful" $"Positive"
                       {| store := Runs.with_insights; events := [] |}))
      as (latest & _ & _ & Hlatest).
    + discriminate.
    + reflexivity.
    + reflexivity.
    + cbv zeta in Hlatest. cbn [Runs.healthy fault] in Hlatest.
      destruct Hlatest as (w' & Hrun & _).
      exists w'. split; [exact Hrun|].
      vm_compute in Hrun. injection Hrun as <-. vm_compute. reflexivity.
Defined.

(* ================================================================== *)
(** ** Beyond the scenarios: the fetch *)
(* ================================================================== *)

Lemma fetch_documents_cortex_run (env : Env) (query_text : pystr) (w : World) :
  fetch_documents_cortex env query_text w
  = (inr match fault env (CortexSearch query_text NUM_CHUNKS) with
         | Some _ => []
         | None => map DOCUMENTS (cortex_search env query_text NUM_CHUNKS)
         end,
     sent (CortexSearch query_text NUM_CHUNKS) w).
Proof.
  unfold fetch_documents_cortex. run_step.
  destruct (fault env (CortexSearch query_text NUM_CHUNKS)); run_step;
    [reflexivity|].
  destruct (cortex_search env query_text NUM_CHUNKS); reflexivity.
Qed.

(** X1.  The Cortex search never raises and never shows anything: with
    its statement failing or not, it returns a list, leaves the store
    as it was, and adds to the record of the run the one statement it
    sent and no page element. *)
Theorem fetch_documents_cortex_silent (env : Env) (query_text : pystr)
    (w : World) :
  exists documents : list document,
    fetch_documents_cortex env query_text w
    = (inr documents,
       {| store := store w;
          events := events w ++ [ Sent (CortexSearch query_text 3) ] |})
    /\ page (events (snd (fetch_documents_cortex env query_text w)))
       = page (events w)
    /\ (fault env (CortexSearch query_text 3) <> None -> documents = []).
Proof.
  rewrite fetch_documents_cortex_run. change NUM_CHUNKS with 3.
  eexists. split; [reflexivity|]. split.
  - cbn [snd sent events].
    induction (events w) as [|ev evs IH]; [reflexivity|].
    destruct ev; cbn [app page]; rewrite IH; reflexivity.
  - intros Hfail.
    destruct (fault env (CortexSearch query_text 3)); [reflexivity|].
    contradiction.
Qed.

Lemma page_app (evs evs' : list event) :
  page (evs ++ evs') = page evs ++ page evs'.
Proof.
  induction evs as [|ev evs IH]; [reflexivity|].
  destruct ev; cbn [app page]; rewrite IH; reflexivity.
Qed.

(** X2.  When the Cortex statement runs and answers at least one row,
    the fetch returns the DOCUMENTS value of every row, in order, and
    the CONTAINS search is not sent at all. *)
Theorem fetch_documents_no_fallback (env : Env) (query_text : pystr)
    (w : World) (r : cortex_row) (rows : list cortex_row) :
  fault env (CortexSearch query_text 3) = None ->
  cortex_search env query_text 3 = r :: rows ->
  fetch_documents env query_text w
  = (inr (map DOCUMENTS (r :: rows)),
     {| store := store w;
        events := events w ++ [ Sent (CortexSearch query_text 3) ] |}).
Proof.
  intros Hrun Hrows. unfold fetch_documents. cbn [bind Monad_M].
  rewrite fetch_documents_cortex_run. change NUM_CHUNKS with 3.
  rewrite Hrun, Hrows. reflexivity.
Qed.

Lemma fetch_documents_no_fallback_witness :
  fetch_documents Runs.healthy $"AR-V7" Runs.w0
  = (inr [ Runs.doc $"Splice variants" $"AR-V7 lacks the ligand-binding domain.";
           Runs.doc $"Enzalutamide" $"Resistance follows AR-V7 expression." ],
     {| store := Runs.fresh_store;
        events := [ Sent (CortexSearch $"AR-V7" 3) ] |}).
Proof.
  rewrite (fetch_documents_no_fallback Runs.healthy $"AR-V7" Runs.w0
             _ _ eq_refl eq_refl).
  reflexivity.
Defined.

(** The fetch never raises and never writes. *)
Lemma fetch_documents_total (env : Env) (query_text : pystr) (w : World) :
  exists (documents : list document) (trail : list event),
    fetch_documents env query_text w
    = (inr documents, {| store := store w; events := events w ++ trail |})
    /\ (trail = [ Sent (CortexSearch query_text 3) ]
        \/ trail = [ Sent (CortexSearch query_text 3);
                     Sent (ContainsSearch query_text 3) ]
        \/ exists msg,
             fault env (ContainsSearch query_text 3) = Some msg
             /\ documents = []
             /\ trail
                = [ Sent (CortexSearch query_text 3);
                    Sent (ContainsSearch query_text 3);
                    Shown (Error ($"Error fetching documents using SQL search: "
                                  ++ msg)) ]).
Proof.
  unfold fetch_documents. cbn [bind Monad_M].
  rewrite fetch_documents_cortex_run. change NUM_CHUNKS with 3.
  set (found := match fault env (CortexSearch query_text 3) with
                | Some _ => []
                | None => map DOCUMENTS (cortex_search env query_text 3)
                end).
  destruct found as [|d found'].
  - cbn [Py.truthy negb]. rewrite fetch_documents_sql_run.
    change NUM_CHUNKS with 3.
    destruct (fault env (ContainsSearch query_text 3)) as [msg|] eqn:Hfault.
    + do 2 eexists. split.
      * unfold shown, sent. cbn [store events].
        rewrite <- !app_assoc. reflexivity.
      * right. right. exists msg. repeat split; reflexivity.
    + do 2 eexists. split.
      * unfold sent. cbn [store events].
        rewrite <- !app_assoc. reflexivity.
      * right. left. reflexivity.
  - cbn [Py.truthy negb]. do 2 eexists. split; [reflexivity|].
    left. reflexivity.
Qed.

(** X3.  The two-tier fetch never raises and never writes to the
    store.  It sends the Cortex search first and the CONTAINS search at
    most once after it; the only element it can put on the page is the
    error of a failed CONTAINS search, and then it returns no
    document. *)
Theorem fetch_documents_never_raises (env : Env) (query_text : pystr)
    (w : World) :
  exists (documents : list document) (w' : World),
    fetch_documents env query_text w = (inr documents, w')
    /\ store w' = store w
    /\ (page (events w') = page (events w)
        \/ exists msg,
             fault env (ContainsSearch query_text 3) = Some msg
             /\ documents = []
             /\ page (events w')
                = page (events w)
                  ++ [ Error ($"Error fetching documents using SQL search: "
                              ++ msg) ])
    /\ exists rest,
         events w' = events w ++ Sent (CortexSearch query_text 3) :: rest
         /\ (calls is_contains_search rest <= 1)%nat
         /\ calls is_cortex_search rest = 0%nat.
Proof.
  destruct (fetch_documents_total env query_text w)
    as (documents & trail & Hrun & Htrail).
  exists documents. eexists. split; [exact Hrun|].
  cbn [store events]. split; [reflexivity|].
  rewrite page_app.
  destruct Htrail as [-> | [-> | (msg & Hfault & Hnone & ->)]].
  - split; [left; cbn [page]; apply app_nil_r|].
    eexists. split; [reflexivity|]. cbn. lia.
  - split; [left; cbn [page]; apply app_nil_r|].
    eexists. split; [reflexivity|]. cbn. lia.
  - split; [right; exists msg; repeat split; assumption|].
    eexists. split; [reflexivity|]. cbn. lia.
Qed.

(* ================================================================== *)
(** ** Beyond the scenarios: the query log *)
(* ================================================================== *)

Lemma eqb_eq (s t : pystr) : Py.eqb s t = true <-> s = t.
Proof.
  revert t. induction s as [|a s IH]; intros [|b t]; simpl;
    try (split; [discriminate | intros H; discriminate H]);
    [split; reflexivity|].
  rewrite andb_true_iff, N.eqb_eq, IH.
  split; [intros [-> ->]; reflexivity | intros H; injection H; auto].
Qed.

Lemma max_of_none (l : list Z) : Sql.max_of l = None -> l = [].
Proof.
  destruct l as [|x l]; simpl; [reflexivity|].
  destruct (Sql.max_of l); discriminate.
Qed.

Lemma max_of_some (l : list Z) (m : Z) :
  Sql.max_of l = Some m -> In m l /\ forall x, In x l -> x <= m.
Proof.
  revert m. induction l as [|x l IH]; simpl; intros m Hmax; [discriminate|].
  destruct (Sql.max_of l) as [m'|] eqn:Hrest.
  - destruct (IH m' eq_refl) as [Hin Hle].
    injection Hmax as <-. split.
    + destruct (Z.max_spec x m') as [[_ ->] | [_ ->]]; auto.
    + intros y [<- | Hy]; [lia|]. specialize (Hle y Hy). lia.
  - injection Hmax as <-. apply max_of_none in Hrest. subst l.
    split; [left; reflexivity|]. intros y [<- | []]. lia.
Qed.

(** What both statements of the query log do when they run. *)
Lemma log_query_run (env : Env) (query_text : pystr) (user_id : Z)
    (w : World) :
  log_query_and_get_query_id env query_text user_id w
  = match fault env (InsertQuery query_text user_id) with
    | Some msg =>
        (inr None,
         {| store := store w;
            events := events w
                      ++ [ Sent (InsertQuery query_text user_id);
                           Shown (Error ($"Error logging query: " ++ msg)) ] |})
    | None =>
        match fault env (SelectMaxQueryId query_text user_id) with
        | Some msg =>
            (inr None,
             {| store := Sql.insert_query query_text user_id (store w);
                events := events w
                          ++ [ Sent (InsertQuery query_text user_id);
                               Sent (SelectMaxQueryId query_text user_id);
                               Shown (Error ($"Error logging query: " ++ msg)) ] |})
        | None =>
            (inr (Sql.select_max_queryid query_text user_id
                    (Sql.insert_query query_text user_id (store w))),
             {| store := Sql.insert_query query_text user_id (store w);
                events := events w
                          ++ [ Sent (InsertQuery query_text user_id);
                               Sent (SelectMaxQueryId query_text user_id) ] |})
        end
    end.
Proof.
  unfold log_query_and_get_query_id. run_step.
  destruct (fault env (InsertQuery query_text user_id)); run_step;
    [rewrite <- !app_assoc; reflexivity|].
  destruct (fault env (SelectMaxQueryId query_text user_id)); run_step;
    rewrite <- !app_assoc; reflexivity.
Qed.

(** The id read back after the insert. *)
Lemma select_max_after_insert (query_text : pystr) (user_id : Z) (s : Store) :
  exists qid : Z,
    Sql.select_max_queryid query_text user_id
      (Sql.insert_query query_text user_id s) = Some qid
    /\ QUERYID_SEQ s <= qid
    /\ (forall r, In r (QUERIES (Sql.insert_query query_text user_id s)) ->
                  Queries.QUERYTEXT r = query_text ->
                  Queries.USERID r = user_id ->
                  Queries.QUERYID r <= qid)
    /\ (exists r, In r (QUERIES (Sql.insert_query query_text user_id s))
                  /\ Queries.QUERYTEXT r = query_text
                  /\ Queries.USERID r = user_id
                  /\ Queries.QUERYID r = qid).
Proof.
  unfold Sql.select_max_queryid.
  set (same := fun r => Py.eqb (Queries.QUERYTEXT r) query_text
                        && (Queries.USERID r =? user_id)).
  set (rows := QUERIES (Sql.insert_query query_text user_id s)).
  set (new := {| Queries.QUERYID := QUERYID_SEQ s;
                 Queries.QUERYTEXT := query_text;
                 Queries.CREATEDAT := NOW s;
                 Queries.USERID := user_id |}).
  assert (Hnew : In new (filter same rows)).
  { apply filter_In. split.
    - unfold rows. cbn [Sql.insert_query QUERIES]. apply in_or_app.
      right. left. reflexivity.
    - unfold same, new. cbn [Queries.QUERYTEXT Queries.USERID].
      rewrite (proj2 (eqb_eq query_text query_text) eq_refl), Z.eqb_refl.
      reflexivity. }
  assert (Hsame : forall r, same r = true <->
                            Queries.QUERYTEXT r = query_text
                            /\ Queries.USERID r = user_id).
  { intros r. unfold same. rewrite andb_true_iff, eqb_eq, Z.eqb_eq.
    reflexivity. }
  destruct (Sql.max_of (map Queries.QUERYID (filter same rows)))
    as [qid|] eqn:Hmax.
  - destruct (max_of_some _ _ Hmax) as [Hin Hle].
    exists qid. split; [reflexivity|]. split; [|split].
    + apply (Hle (Queries.QUERYID new)). apply in_map. exact Hnew.
    + intros r Hr Htext Huser. apply Hle. apply in_map.
      apply filter_In. split; [exact Hr|]. apply Hsame. auto.
    + apply in_map_iff in Hin. destruct Hin as (r & Hid & Hr).
      apply filter_In in Hr. destruct Hr as [Hr Hmatch].
      apply Hsame in Hmatch. destruct Hmatch as [Htext Huser].
      exists r. auto.
  - apply max_of_none in Hmax.
    apply (in_map Queries.QUERYID) in Hnew. rewrite Hmax in Hnew.
    destruct Hnew.
Qed.

(** X4.  When both of its statements run, the query log adds one row
    to QUERIES, carrying the text, the user and the store's clock, and
    returns the id of a stored row with that text and user: the
    greatest such id, never below the id the new row was given, and
    that very id when every earlier row has a smaller one. *)
Theorem log_query_returns_greatest_id (env : Env) (query_text : pystr)
    (user_id : Z) (w : World) :
  fault env (InsertQuery query_text user_id) = None ->
  fault env (SelectMaxQueryId query_text user_id) = None ->
  exists (qid : Z) (w1 : World),
    log_query_and_get_query_id env query_text user_id w = (inr (Some qid), w1)
    /\ QUERIES (store w1)
       = QUERIES (store w)
         ++ [ {| Queries.QUERYID := QUERYID_SEQ (store w);
                 Queries.QUERYTEXT := query_text;
                 Queries.CREATEDAT := NOW (store w);
                 Queries.USERID := user_id |} ]
    /\ QUERYID_SEQ (store w) <= qid
    /\ (forall r, In r (QUERIES (store w1)) ->
                  Queries.QUERYTEXT r = query_text ->
                  Queries.USERID r = user_id ->
                  Queries.QUERYID r <= qid)
    /\ (exists r, In r (QUERIES (store w1))
                  /\ Queries.QUERYTEXT r = query_text
                  /\ Queries.USERID r = user_id
                  /\ Queries.QUERYID r = qid)
    /\ ((forall r, In r (QUERIES (store w)) ->
                   Queries.QUERYID r < QUERYID_SEQ (store w)) ->
        qid = QUERYID_SEQ (store w)).
Proof.
  intros Hinsert Hselect.
  destruct (select_max_after_insert query_text user_id (store w))
    as (qid & Hmax & Hnew & Hgreatest & Hrow).
  rewrite log_query_run, Hinsert, Hselect, Hmax.
  exists qid. eexists. split; [reflexivity|]. cbn [store].
  split; [reflexivity|]. split; [exact Hnew|].
  split; [exact Hgreatest|]. split; [exact Hrow|].
  intros Hfresh. destruct Hrow as (r & Hr & _ & _ & Hid).
  cbn [Sql.insert_query QUERIES] in Hr. apply in_app_or in Hr.
  destruct Hr as [Hold | [<- | []]].
  - specialize (Hfresh r Hold). lia.
  - cbn [Queries.QUERYID] in Hid. symmetry. exact Hid.
Qed.

Lemma log_query_returns_greatest_id_witness :
  exists w1,
    log_query_and_get_query_id Runs.healthy $"AR-V7" 1
      {| store := Runs.with_query; events := [] |} = (inr (Some 5), w1)
    /\ map Queries.QUERYID (QUERIES (store w1)) = [4; 5].
Proof.
  destruct (log_query_returns_greatest_id Runs.healthy $"AR-V7" 1
              {| store := Runs.with_query; events := [] |} eq_refl eq_refl)
    as (qid & w1 & Hrun & Hrows & _ & _ & _ & Hfresh).
  assert (Hqid : qid = 5).
  { apply Hfresh. intros r [<- | []]. reflexivity. }
  subst qid. exists w1. split; [exact Hrun|].
  rewrite Hrows. reflexivity.
Defined.

(** X5.  The query log never raises.  It returns [None] exactly when
    one of its two statements failed, and it then shows the error.  A
    failed insert leaves the store as it was; a failed re-select leaves
    the row the insert wrote, although no id is returned for it. *)
Theorem log_query_none_iff_failed (env : Env) (query_text : pystr)
    (user_id : Z) (w : World) :
  exists (query_id : option Z) (w1 : World),
    log_query_and_get_query_id env query_text user_id w = (inr query_id, w1)
    /\ (query_id = None <->
        fault env (InsertQuery query_text user_id) <> None
        \/ fault env (SelectMaxQueryId query_text user_id) <> None)
    /\ (forall msg,
          fault env (InsertQuery query_text user_id) = Some msg ->
          store w1 = store w
          /\ page (events w1)
             = page (events w) ++ [ Error ($"Error logging query: " ++ msg) ])
    /\ (forall msg,
          fault env (InsertQuery query_text user_id) = None ->
          fault env (SelectMaxQueryId query_text user_id) = Some msg ->
          store w1 = Sql.insert_query query_text user_id (store w)
          /\ page (events w1)
             = page (events w) ++ [ Error ($"Error logging query: " ++ msg) ])
    /\ (query_id <> None ->
        store w1 = Sql.insert_query query_text user_id (store w)
        /\ page (events w1) = page (events w)).
Proof.
  rewrite log_query_run.
  destruct (select_max_after_insert query_text user_id (store w))
    as (qid & Hmax & _).
  destruct (fault env (InsertQuery query_text user_id)) as [msg1|].
  - do 2 eexists. split; [reflexivity|]. cbn [store events].
    rewrite page_app. cbn [page].
    split; [split; [intros _; left; discriminate | reflexivity]|].
    split; [intros msg Hmsg; injection Hmsg as <-; split; reflexivity|].
    split; [intros msg Hnone; discriminate Hnone|].
    intros Hsome. contradiction.
  - destruct (fault env (SelectMaxQueryId query_text user_id)) as [msg2|].
    + do 2 eexists. split; [reflexivity|]. cbn [store events].
      rewrite page_app. cbn [page].
      split; [split; [intros _; right; discriminate | reflexivity]|].
      split; [intros msg Hmsg; discriminate Hmsg|].
      split; [intros msg _ Hmsg; injection Hmsg as <-; split; reflexivity|].
      intros Hsome. contradiction.
    + rewrite Hmax. do 2 eexists. split; [reflexivity|]. cbn [store events].
      rewrite page_app. cbn [page]. rewrite app_nil_r.
      split.
      { split; [discriminate|]. intros [H | H]; contradiction. }
      split; [intros msg Hmsg; discriminate Hmsg|].
      split; [intros msg _ Hmsg; discriminate Hmsg|].
      intros _. split; reflexivity.
Qed.

Lemma log_query_none_iff_failed_witness :
  log_query_and_get_query_id Runs.select_down $"AR-V7" 1 Runs.w0
  = (inr None,
     {| store := Sql.insert_query $"AR-V7" 1 Runs.fresh_store;
        events := [ Sent (InsertQuery $"AR-V7" 1);
                    Sent (SelectMaxQueryId $"AR-V7" 1);
                    Shown (Error $"Error logging query: Warehouse suspended") ] |}).
Proof.
  destruct (log_query_none_iff_failed Runs.select_down $"AR-V7" 1 Runs.w0)
    as (query_id & w1 & Hrun & _).
  rewrite Hrun. vm_compute in Hrun. injection Hrun as <- <-.
  vm_compute. reflexivity.
Defined.

(* ================================================================== *)
(** ** Beyond the scenarios: the "Fetch and Analyze" handler *)
(* ================================================================== *)

(** The query log returns, with the store as it was or one row longer. *)
Lemma log_query_total (env : Env) (query_text : pystr) (user_id : Z)
    (w : World) :
  exists (query_id : option Z) (w1 : World),
    log_query_and_get_query_id env query_text user_id w = (inr query_id, w1)
    /\ (store w1 = store w /\ query_id = None
        \/ store w1 = Sql.insert_query query_text user_id (store w)).
Proof.
  rewrite log_query_run.
  destruct (fault env (InsertQuery query_text user_id)).
  - do 2 eexists. split; [reflexivity|]. left. split; reflexivity.
  - destruct (fault env (SelectMaxQueryId query_text user_id));
      do 2 eexists; (split; [reflexivity|]); right; reflexivity.
Qed.

(** The second half of the handler on a bound context: it returns, and
    writes at most the one insight row, and only under a usable id. *)
Lemma analyze_total (env : Env) (query_id : option Z) (context : pystr)
    (w : World) :
  exists (w' : World) (trail : list event),
    analyze env query_id (Some context) w = (inr tt, w')
    /\ events w' = events w ++ trail
    /\ (store w' = store w
        \/ (Py.truthy_id query_id = true
            /\ forallb Py.isspace context = false
            /\ exists insights,
                 fst (generate_insights env context w) = inr insights
                 /\ store w' = Sql.insert_insight insights query_id (store w)))
    /\ (forall s, In (Sent s) trail ->
          s = CortexComplete MODEL (prompt_of context)
          \/ exists insights, s = InsertInsight insights query_id).
Proof.
  destruct (forallb Py.isspace context) eqn:Hctx.
  - rewrite (analyze_blank env query_id context w Hctx).
    do 2 eexists. split; [reflexivity|]. cbn [shown events store].
    split; [reflexivity|]. split; [left; reflexivity|].
    intros s [H | []]. discriminate H.
  - destruct (analyze_context env query_id context w Hctx)
      as (insights & Hgen & Hrun).
    rewrite Hrun. destruct (Py.truthy_id query_id) eqn:Hid.
    + rewrite log_insights_run.
      destruct (fault env (InsertInsight insights query_id)).
      * do 2 eexists. split; [reflexivity|]. cbn [store events].
        rewrite <- app_assoc. split; [reflexivity|].
        split; [left; reflexivity|].
        intros s Hs. cbn [app] in Hs.
        destruct Hs as [H | [H | [H | [H | [H | []]]]]];
          try discriminate H; injection H as <-; eauto.
      * do 2 eexists. split; [reflexivity|]. cbn [store events].
        rewrite <- app_assoc. split; [reflexivity|].
        split.
        { right. split; [reflexivity|]. split; [reflexivity|].
          exists insights. rewrite Hgen. split; reflexivity. }
        intros s Hs. cbn [app] in Hs.
        destruct Hs as [H | [H | [H | [H | [H | []]]]]];
          try discriminate H; injection H as <-; eauto.
    + do 2 eexists. split; [reflexivity|]. cbn [store events].
      split; [reflexivity|]. split; [left; reflexivity|].
      intros s Hs.
      destruct Hs as [H | [H | [H | []]]];
        try discriminate H; injection H as <-; eauto.
Qed.

(** The first half of the handler when no custom context was given. *)
Lemma resolve_context_query_path (env : Env) (query custom_context : pystr)
    (w w1 : World) (query_id : option Z) :
  Py.truthy custom_context = false ->
  log_query_and_get_query_id env query 1 w = (inr query_id, w1) ->
  (Py.truthy_id query_id = false ->
   resolve_context env query custom_context w = (inr (query_id, None), w1))
  /\ (Py.truthy_id query_id = true ->
      forall documents w2,
        fetch_documents env query w1 = (inr documents, w2) ->
        resolve_context env query custom_context w
        = (inr (query_id,
                Some (if Py.truthy documents
                      then Py.str_join [10%N] (contents_of documents)
                      else Py.empty_str)),
           {| store := store w2;
              events := events w2
                        ++ (if Py.truthy documents
                            then [ Shown (Markdown $"### Retrieved Documents");
                                   Shown (Json documents) ]
                            else []) |})).
Proof.
  intros Hcc Hlog. unfold resolve_context. rewrite Hcc. cbn [negb].
  cbn [bind Monad_M]. rewrite Hlog. split; intros Hid; rewrite Hid.
  - reflexivity.
  - intros documents w2 Hfetch. unfold with_spinner. cbn [bind Monad_M].
    rewrite Hfetch. destruct documents as [|d documents]; cbn [Py.truthy].
    + run_step. rewrite app_nil_r. destruct w2; reflexivity.
    + run_step. rewrite <- app_assoc. reflexivity.
Qed.


(** The handler off the query path. *)
Lemma handler_without_query_path (env : Env)
    (query custom_context : pystr) (w : World) :
  Py.truthy custom_context = true \/ Py.truthy query = false ->
  exists (w' : World) (trail : list event),
    fetch_and_analyze env query custom_context w = (inr tt, w')
    /\ store w' = store w
    /\ events w' = events w ++ trail
    /\ (forall s, In (Sent s) trail ->
          s = CortexComplete MODEL (prompt_of custom_context))
    /\ calls is_log_query trail = 0%nat
    /\ calls is_log_insight trail = 0%nat.
Proof.
  intros Hinputs. unfold fetch_and_analyze.
  destruct (Py.truthy custom_context) eqn:Hcc.
  - rewrite orb_true_r. cbn [bind Monad_M].
    unfold resolve_context. rewrite Hcc. cbn [negb ret Monad_M].
    destruct (forallb Py.isspace custom_context) eqn:Hctx.
    + rewrite (analyze_blank env None custom_context w Hctx).
      do 2 eexists. split; [reflexivity|]. cbn [shown store events].
      repeat (split; [reflexivity|]).
      split; [|split; reflexivity].
      intros s [H | []]. discriminate H.
    + destruct (analyze_context env None custom_context w Hctx)
        as (insights & _ & Hrun).
      rewrite Hrun. cbn [Py.truthy_id ret Monad_M].
      do 2 eexists. split; [reflexivity|]. cbn [store events].
      repeat (split; [reflexivity|]).
      split; [|split; reflexivity].
      intros s [H | [H | [H | []]]]; try discriminate H.
      injection H as <-. reflexivity.
  - destruct Hinputs as [Hfalse | Hq]; [discriminate Hfalse|].
    rewrite Hq. cbn [orb]. run_step.
    do 2 eexists. split; [reflexivity|]. cbn [store events].
    repeat (split; [reflexivity|]).
    split; [|split; reflexivity].
    intros s [H | []]. discriminate H.
Qed.

(** X7.  With a custom context given, or with no query text, the
    handler returns without an exception and writes nothing to the
    store: the only statement it can send is the completion on the
    custom context, and no query and no insight is logged. *)
Theorem fetch_and_analyze_writes_nothing (env : Env)
    (query custom_context : pystr) (w : World) :
  Py.truthy custom_context = true \/ Py.truthy query = false ->
  exists (w' : World) (trail : list event),
    fetch_and_analyze env query custom_context w = (inr tt, w')
    /\ store w' = store w
    /\ events w' = events w ++ trail
    /\ (forall s, In (Sent s) trail ->
          s = CortexComplete MODEL (prompt_of custom_context))
    /\ calls is_log_query trail = 0%nat
    /\ calls is_log_insight trail = 0%nat.
Proof. exact (handler_without_query_path env query custom_context w). Qed.

Lemma fetch_and_analyze_writes_nothing_witness :
  exists w',
    fetch_and_analyze Runs.healthy $"AR-V7" $"   " Runs.w0 = (inr tt, w')
    /\ store w' = Runs.fresh_store.
Proof.
  destruct (fetch_and_analyze_writes_nothing Runs.healthy $"AR-V7" $"   "
              Runs.w0 (or_introl eq_refl))
    as (w' & trail & Hrun & Hstore & _).
  exists w'. split; [exact Hrun | exact Hstore].
Defined.

(** X8.  Whatever the inputs and whatever fails, and also when the run
    ends in an exception, the handler leaves the feedback table alone,
    adds at most one row to QUERIES (the submitted text, user 1) and at
    most one row to INSIGHTS.  An insight row is only written after the
    query row, and its query id is never null or 0: it is the id of a
    stored query row that carries the submitted text. *)
Theorem fetch_and_analyze_store_invariant (env : Env)
    (query custom_context : pystr) (w : World) :
  let s := store w in
  let s' := store (snd (fetch_and_analyze env query custom_context w)) in
  let logged :=
    QUERIES s ++ [ {| Queries.QUERYID := QUERYID_SEQ s;
                      Queries.QUERYTEXT := query;
                      Queries.CREATEDAT := NOW s;
                      Queries.USERID := 1 |} ] in
  FEEDBACKLOGS s' = FEEDBACKLOGS s
  /\ (QUERIES s' = QUERIES s \/ QUERIES s' = logged)
  /\ (INSIGHTS s' = INSIGHTS s
      \/ exists (insights : pystr) (qid : Z),
           qid <> 0
           /\ INSIGHTS s'
              = INSIGHTS s
                ++ [ {| Insights.INSIGHTID := INSIGHTID_SEQ s;
                        Insights.INSIGHTTEXT := insights;
                        Insights.QUERYID := Some qid;
                        Insights.GENERATEDAT := NOW s |} ]
           /\ QUERIES s' = logged
           /\ exists r, In r (QUERIES s')
                        /\ Queries.QUERYID r = qid
                        /\ Queries.QUERYTEXT r = query
                        /\ Queries.USERID r = 1).
Proof.
  cbv zeta.
  destruct (Py.truthy custom_context) eqn:Hcc;
    [|destruct (Py.truthy query) eqn:Hq].
  1, 3: destruct (handler_without_query_path env query custom_context w)
      as (w' & trail & Hrun & Hstore & _); [auto | ];
    rewrite Hrun; cbn [snd]; rewrite Hstore; auto.
  unfold fetch_and_analyze. rewrite Hq. cbn [orb]. cbn [bind Monad_M].
  pose proof (log_query_run env query 1 w) as Hlog.
  destruct (select_max_after_insert query 1 (store w))
    as (qid & Hmax & _ & _ & Hrow).
  destruct (fault env (InsertQuery query 1)).
  { destruct (resolve_context_query_path env query custom_context w _ _
                Hcc Hlog) as [Hunbound _].
    rewrite (Hunbound eq_refl), analyze_unbound. cbn [snd store]. auto. }
  destruct (fault env (SelectMaxQueryId query 1)).
  { destruct (resolve_context_query_path env query custom_context w _ _
                Hcc Hlog) as [Hunbound _].
    rewrite (Hunbound eq_refl), analyze_unbound. cbn [snd store].
    cbn [Sql.insert_query FEEDBACKLOGS QUERIES INSIGHTS]. auto. }
  rewrite Hmax in Hlog.
  destruct (resolve_context_query_path env query custom_context w _ _
              Hcc Hlog) as [Hunbound Hbound].
  destruct (Py.truthy_id (Some qid)) eqn:Hid.
  - match type of Hlog with
    | _ = (_, ?w1) =>
        destruct (fetch_documents_total env query w1)
          as (documents & trail & Hfetch & _)
    end.
    rewrite (Hbound eq_refl _ _ Hfetch).
    match goal with
    | |- context [analyze env (Some qid) (Some ?c) ?w2] =>
        destruct (analyze_total env (Some qid) c w2)
          as (w' & tr & Hrun & _ & Hstore & _);
        change (analyze env (Some qid) (Some c) w2)
          with (analyze env (Some qid) (@Some pystr c) w2)
    end.
    rewrite Hrun. cbn [snd]. cbn [store] in Hstore.
    destruct Hstore as [-> | (_ & _ & insights & _ & ->)];
      cbn [Sql.insert_insight Sql.insert_query
           FEEDBACKLOGS QUERIES INSIGHTS INSIGHTID_SEQ NOW].
    + auto.
    + split; [reflexivity|]. split; [right; reflexivity|]. right.
      exists insights, qid. split.
      { cbn [Py.truthy_id] in Hid. apply negb_true_iff in Hid.
        apply Z.eqb_neq. exact Hid. }
      split; [reflexivity|]. split; [reflexivity|].
      destruct Hrow as (r & Hr & Htext & Huser & Hqid).
      exists r. auto.
  - rewrite (Hunbound eq_refl), analyze_unbound. cbn [snd store].
    cbn [Sql.insert_query FEEDBACKLOGS QUERIES INSIGHTS]. auto.
Qed.





(* ================================================================== *)
(** ** Beyond the scenarios: feedback *)
(* ================================================================== *)

(** Every path of the "Submit Feedback" handler. *)
Lemma submit_feedback_run (env : Env) (feedback_text feedback_type : pystr)
    (w : World) :
  submit_feedback env feedback_text feedback_type w
  = (inr tt,
     if Py.truthy feedback_text then
       match fault env SelectLatestInsightId with
       | Some msg =>
           {| store := store w;
              events := events w
                        ++ [ Sent SelectLatestInsightId;
                             Shown (Error ($"Error submitting feedback: "
                                           ++ msg)) ] |}
       | None =>
           match Sql.select_latest_insightid (store w) with
           | [] =>
               {| store := store w;
                  events := events w
                            ++ [ Sent SelectLatestInsightId;
                                 Shown (Error $"Error submitting feedback: list index out of range") ] |}
           | id :: _ =>
               let insert := InsertFeedback feedback_text feedback_type id in
               match fault env insert with
               | Some msg =>
                   {| store := store w;
                      events := events w
                                ++ [ Sent SelectLatestInsightId; Sent insert;
                                     Shown (Error ($"Error submitting feedback: "
                                                   ++ msg)) ] |}
               | None =>
                   {| store := Sql.insert_feedback feedback_text feedback_type
                                 id (store w);
                      events := events w
                                ++ [ Sent SelectLatestInsightId; Sent insert;
                                     Shown (Success $"Feedback submitted successfully!") ] |}
               end
           end
       end
     else
       {| store := store w;
          events := events w
                    ++ [ Shown (Warning $"Please provide feedback before submitting.") ] |}).
Proof.
  unfold submit_feedback. destruct (Py.truthy feedback_text);
    [|reflexivity].
  run_step. destruct (fault env SelectLatestInsightId); run_step;
    [rewrite <- app_assoc; reflexivity|].
  destruct (Sql.select_latest_insightid (store w)) as [|id ids];
    cbn [map]; run_step; [rewrite <- app_assoc; reflexivity|].
  cbn [INSIGHTID].
  destruct (fault env (InsertFeedback feedback_text feedback_type id));
    run_step; rewrite <- !app_assoc; reflexivity.
Qed.

Lemma select_latest_insightid_in (s : Store) (id : Z) (ids : list Z) :
  Sql.select_latest_insightid s = id :: ids ->
  exists latest,
    In latest (INSIGHTS s)
    /\ Insights.INSIGHTID latest = id
    /\ forall i, In i (INSIGHTS s) ->
                 Insights.GENERATEDAT i <= Insights.GENERATEDAT latest.
Proof.
  unfold Sql.select_latest_insightid.
  destruct (Sql.order_by_desc Insights.GENERATEDAT (INSIGHTS s))
    as [|latest rest] eqn:Hsorted; [discriminate|].
  cbn [firstn map]. intros Hid. injection Hid as Hid _.
  destruct (order_by_desc_head Insights.GENERATEDAT _ _ _ Hsorted)
    as [Hin Hmax].
  exists latest. auto.
Qed.

(** X10.  The "Submit Feedback" handler never raises and never touches
    the queries or the insights.  Either it leaves the whole store as
    it was and shows one warning or one error, or it adds one feedback
    row, for the id of a stored insight, and shows the success message:
    the message appears exactly when the row was written.  With no
    text entered it sends nothing to the session. *)
Theorem submit_feedback_success_iff_row (env : Env)
    (feedback_text feedback_type : pystr) (w : World) :
  exists (w' : World) (trail : list event),
    submit_feedback env feedback_text feedback_type w = (inr tt, w')
    /\ events w' = events w ++ trail
    /\ QUERIES (store w') = QUERIES (store w)
    /\ INSIGHTS (store w') = INSIGHTS (store w)
    /\ ((store w' = store w
         /\ exists body, page trail = [ Warning body ] \/ page trail = [ Error body ])
        \/ (exists latest,
              In latest (INSIGHTS (store w))
              /\ FEEDBACKLOGS (store w')
                 = FEEDBACKLOGS (store w)
                   ++ [ {| Feedback.FEEDBACKDETAILS := feedback_text;
                           Feedback.FEEDBACKTYPE := feedback_type;
                           Feedback.INSIGHTID := Insights.INSIGHTID latest;
                           Feedback.LOGGEDAT := NOW (store w) |} ]
              /\ page trail = [ Success $"Feedback submitted successfully!" ]))
    /\ (Py.truthy feedback_text = false ->
        trail = [ Shown (Warning $"Please provide feedback before submitting.") ]).
Proof.
  rewrite submit_feedback_run.
  destruct (Py.truthy feedback_text).
  2: { do 2 eexists. split; [reflexivity|]. cbn [store events].
       repeat (split; [reflexivity|]). split; [|reflexivity].
       left. split; [reflexivity|]. eexists. left. reflexivity. }
  destruct (fault env SelectLatestInsightId).
  { do 2 eexists. split; [reflexivity|]. cbn [store events].
    repeat (split; [reflexivity|]). split; [|discriminate].
    left. split; [reflexivity|]. eexists. right. reflexivity. }
  destruct (Sql.select_latest_insightid (store w)) as [|id ids] eqn:Hlatest.
  { do 2 eexists. split; [reflexivity|]. cbn [store events].
    repeat (split; [reflexivity|]). split; [|discriminate].
    left. split; [reflexivity|]. eexists. right. reflexivity. }
  destruct (select_latest_insightid_in _ _ _ Hlatest)
    as (latest & Hin & Hid & _).
  cbv zeta.
  destruct (fault env (InsertFeedback feedback_text feedback_type id)).
  { do 2 eexists. split; [reflexivity|]. cbn [store events].
    repeat (split; [reflexivity|]). split; [|discriminate].
    left. split; [reflexivity|]. eexists. right. reflexivity. }
  do 2 eexists. split; [reflexivity|]. cbn [store events].
  repeat (split; [reflexivity|]). split; [|discriminate].
  right. exists latest. rewrite Hid. repeat split. exact Hin.
Qed.

Lemma view_feedback_logs_run (env : Env) (w : World) :
  view_feedback_logs env w
  = (inr tt,
     {| store := store w;
        events :=
          events w
          ++ Sent SelectFeedbackLogs
             :: match fault env SelectFeedbackLogs with
                | Some msg =>
                    [ Shown (Error ($"Error fetching feedback logs: " ++ msg)) ]
                | None =>
                    if Py.empty (Sql.select_feedback_logs (store w))
                    then [ Shown (Write $"No feedback records found.") ]
                    else [ Shown (Markdown $"### Feedback Logs");
                           Shown (Dataframe
                                    (Sql.select_feedback_logs (store w))) ]
                end |}).
Proof.
  unfold view_feedback_logs. run_step.
  destruct (fault env SelectFeedbackLogs); run_step;
    [rewrite <- app_assoc; reflexivity|].
  destruct (Sql.select_feedback_logs (store w));
    cbn [Py.empty Py.truthy negb]; run_step;
    rewrite <- !app_assoc; reflexivity.
Qed.

(** X11.  The "View Feedback Logs" handler never raises and never
    writes: the store after it is the store before it.  It sends its
    one statement, and when that fails it shows the error with the
    failure's message and nothing else. *)
Theorem view_feedback_logs_read_only (env : Env) (w : World) :
  exists trail : list event,
    view_feedback_logs env w
    = (inr tt,
       {| store := store w;
          events := events w ++ Sent SelectFeedbackLogs :: trail |})
    /\ (forall s, ~ In (Sent s) trail)
    /\ (forall msg,
          fault env SelectFeedbackLogs = Some msg ->
          trail = [ Shown (Error ($"Error fetching feedback logs: " ++ msg)) ])
    /\ (fault env SelectFeedbackLogs = None ->
        forall body, ~ In (Shown (Error body)) trail).
Proof.
  rewrite view_feedback_logs_run. eexists. split; [reflexivity|].
  destruct (fault env SelectFeedbackLogs) as [msg|].
  - split; [intros s [H | []]; discriminate H|].
    split; [intros msg' H; injection H as <-; reflexivity|].
    discriminate.
  - split.
    + intros s. destruct (Py.empty _).
      * intros [H | []]. discriminate H.
      * intros [H | [H | []]]; discriminate H.
    + split; [discriminate|]. intros _ body.
      destruct (Py.empty _).
      * intros [H | []]. discriminate H.
      * intros [H | [H | []]]; discriminate H.
Qed.

Lemma view_feedback_logs_read_only_witness :
  view_feedback_logs Runs.logs_down
    {| store := Runs.two_feedback; events := [] |}
  = (inr tt,
     {| store := Runs.two_feedback;
        events :=
          [ Sent SelectFeedbackLogs;
            Shown (Error $"Error fetching feedback logs: Table FEEDBACKLOGS does not exist") ] |}).
Proof.
  destruct (view_feedback_logs_read_only Runs.logs_down
              {| store := Runs.two_feedback; events := [] |})
    as (trail & Hrun & _ & Hfail & _).
  rewrite Hrun, (Hfail _ eq_refl). reflexivity.
Defined.

(** X12.  Feedback that was submitted is listed.  After a submission
    with text over a store with insights, with both statements
    running, the feedback-log query over the new store returns a
    record with the submitted details and type, the store's clock as
    logged_at, and the text of an insight of greatest generated_at; the
    "View Feedback Logs" handler then shows a table with that record. *)
Theorem submitted_feedback_is_listed (env : Env)
    (feedback_text feedback_type : pystr) (w : World) :
  Py.truthy feedback_text = true ->
  INSIGHTS (store w) <> [] ->
  fault env SelectLatestInsightId = None ->
  (forall id, fault env (InsertFeedback feedback_text feedback_type id) = None) ->
  fault env SelectFeedbackLogs = None ->
  exists (w' : World) (latest : Insights.row),
    submit_feedback env feedback_text feedback_type w = (inr tt, w')
    /\ In latest (INSIGHTS (store w))
    /\ (forall i, In i (INSIGHTS (store w)) ->
                  Insights.GENERATEDAT i <= Insights.GENERATEDAT latest)
    /\ In {| Logs.FEEDBACKDETAILS := feedback_text;
             Logs.FEEDBACKTYPE := feedback_type;
             Logs.INSIGHTTEXT := Insights.INSIGHTTEXT latest;
             Logs.LOGGEDAT := NOW (store w) |}
          (Sql.select_feedback_logs (store w'))
    /\ view_feedback_logs env w'
       = (inr tt,
          {| store := store w';
             events :=
               events w'
               ++ [ Sent SelectFeedbackLogs;
                    Shown (Markdown $"### Feedback Logs");
                    Shown (Dataframe (Sql.select_feedback_logs (store w'))) ] |}).
Proof.
  intros Htext Hsome Hselect Hinsert Hview.
  rewrite submit_feedback_run, Htext, Hselect.
  destruct (Sql.select_latest_insightid (store w)) as [|id ids] eqn:Hlatest.
  { unfold Sql.select_latest_insightid in Hlatest.
    destruct (Sql.order_by_desc Insights.GENERATEDAT (INSIGHTS (store w)))
      eqn:Hsorted; [|discriminate Hlatest].
    apply order_by_desc_nil in Hsorted. contradiction. }
  destruct (select_latest_insightid_in _ _ _ Hlatest)
    as (latest & Hin & Hid & Hmax).
  cbv zeta. rewrite Hinsert.
  eexists. exists latest. split; [reflexivity|].
  split; [exact Hin|]. split; [exact Hmax|].
  cbn [store events].
  assert (Hlisted :
            In {| Logs.FEEDBACKDETAILS := feedback_text;
                  Logs.FEEDBACKTYPE := feedback_type;
                  Logs.INSIGHTTEXT := Insights.INSIGHTTEXT latest;
                  Logs.LOGGEDAT := NOW (store w) |}
               (Sql.select_feedback_logs
                  (Sql.insert_feedback feedback_text feedback_type id (store w)))).
  { unfold Sql.select_feedback_logs.
    apply (Permutation_in _ (order_by_desc_perm Logs.LOGGEDAT _)).
    unfold Sql.feedback_join. apply in_flat_map.
    exists {| Feedback.FEEDBACKDETAILS := feedback_text;
              Feedback.FEEDBACKTYPE := feedback_type;
              Feedback.INSIGHTID := id;
              Feedback.LOGGEDAT := NOW (store w) |}.
    split.
    - cbn [Sql.insert_feedback FEEDBACKLOGS]. apply in_or_app.
      right. left. reflexivity.
    - apply in_map_iff. exists latest. split; [reflexivity|].
      apply filter_In. split; [exact Hin|].
      unfold Sql.matches. cbn [Feedback.INSIGHTID].
      rewrite Hid. apply Z.eqb_refl. }
  split; [exact Hlisted|].
  rewrite view_feedback_logs_run, Hview. cbn [store events].
  destruct (Sql.select_feedback_logs
              (Sql.insert_feedback feedback_text feedback_type id (store w)));
    [destruct Hlisted | reflexivity].
Qed.

Lemma submitted_feedback_is_listed_witness :
  exists w',
    submit_feedback Runs.healthy $"helpful" $"Positive"
      {| store := Runs.with_insights; events := [] |} = (inr tt, w')
    /\ Sql.select_feedback_logs (store w')
       = [ {| Logs.FEEDBACKDETAILS := $"helpful";
              Logs.FEEDBACKTYPE := $"Positive";
              Logs.INSIGHTTEXT := $"second";
              Logs.LOGGEDAT := 100 |} ].
Proof.
  destruct (submitted_feedback_is_listed Runs.healthy $"helpful" $"Positive"
              {| store := Runs.with_insights; events := [] |})
    as (w' & latest & Hrun & _).
  - reflexivity.
  - discriminate.
  - reflexivity.
  - reflexivity.
  - reflexivity.
  - exists w'. split; [exact Hrun|].
    vm_compute in Hrun. injection Hrun as <-. vm_compute. reflexivity.
Defined.

Lemma order_by_desc_newest_last {A : Type} (key : A -> Z) (l : list A) (x : A) :
  (forall y, In y l -> key y < key x) ->
  Sql.order_by_desc key (l ++ [x]) = x :: Sql.order_by_desc key l.
Proof.
  induction l as [|a l IH]; intros Hnewer; [reflexivity|].
  cbn [app Sql.order_by_desc].
  rewrite IH by (intros y Hy; apply Hnewer; right; exact Hy).
  cbn [Sql.insert_desc].
  destruct (Z.leb_spec (key x) (key a)) as [Hle | _]; [|reflexivity].
  specialize (Hnewer a (or_introl eq_refl)). lia.
Qed.

(** X13.  Feedback submitted right after an insight was logged is
    attached to that insight, provided every insight stored before it
    has a strictly earlier generated_at: the feedback row carries the
    id the new insight row was given. *)
Theorem feedback_follows_logged_insight (env : Env)
    (insight_text : pystr) (query_id : option Z)
    (feedback_text feedback_type : pystr) (w : World) :
  fault env (InsertInsight insight_text query_id) = None ->
  (forall i, In i (INSIGHTS (store w)) ->
             Insights.GENERATEDAT i < NOW (store w)) ->
  Py.truthy feedback_text = true ->
  fault env SelectLatestInsightId = None ->
  fault env (InsertFeedback feedback_text feedback_type
               (INSIGHTID_SEQ (store w))) = None ->
  exists w1 w2 : World,
    log_insights env insight_text query_id w = (inr tt, w1)
    /\ submit_feedback env feedback_text feedback_type w1 = (inr tt, w2)
    /\ INSIGHTS (store w2)
       = INSIGHTS (store w)
         ++ [ {| Insights.INSIGHTID := INSIGHTID_SEQ (store w);
                 Insights.INSIGHTTEXT := insight_text;
                 Insights.QUERYID := query_id;
                 Insights.GENERATEDAT := NOW (store w) |} ]
    /\ FEEDBACKLOGS (store w2)
       = FEEDBACKLOGS (store w)
         ++ [ {| Feedback.FEEDBACKDETAILS := feedback_text;
                 Feedback.FEEDBACKTYPE := feedback_type;
                 Feedback.INSIGHTID := INSIGHTID_SEQ (store w);
                 Feedback.LOGGEDAT := NOW (store w) |} ].
Proof.
  intros Hlog Hearlier Htext Hselect Hinsert.
  rewrite log_insights_run, Hlog.
  eexists. eexists. split; [reflexivity|].
  rewrite submit_feedback_run, Htext, Hselect. cbn [store].
  unfold Sql.select_latest_insightid.
  cbn [Sql.insert_insight INSIGHTS].
  rewrite order_by_desc_newest_last
    by (intros y Hy; cbn [Insights.GENERATEDAT]; exact (Hearlier y Hy)).
  cbn [firstn map Insights.INSIGHTID]. cbv zeta. rewrite Hinsert.
  split; [reflexivity|]. cbn [store].
  split; reflexivity.
Qed.

Lemma feedback_follows_logged_insight_witness :
  exists w2,
    submit_feedback Runs.healthy $"helpful" $"Positive"
      (snd (log_insights Runs.healthy $"fourth" (Some 7)
              {| store := Runs.with_insights; events := [] |}))
    = (inr tt, w2)
    /\ map Feedback.INSIGHTID (FEEDBACKLOGS (store w2)) = [4].
Proof.
  destruct (feedback_follows_logged_insight Runs.healthy $"fourth" (Some 7)
              $"helpful" $"Positive"
              {| store := Runs.with_insights; events := [] |})
    as (w1 & w2 & Hlog & Hrun & _ & Hrows).
  - reflexivity.
  - intros i [<- | [<- | [<- | []]]]; reflexivity.
  - reflexivity.
  - reflexivity.
  - reflexivity.
  - exists w2. rewrite Hlog. split; [exact Hrun|].
    rewrite Hrows. reflexivity.
Defined.

(* ================================================================== *)
(** ** Beyond the scenarios: what is stored is what was shown *)
(* ================================================================== *)

(** The query log only appends to the record of the run. *)
Lemma log_query_returned_or_not (env : Env) (query : pystr) (w w1 : World)
    (query_id : option Z) :
  log_query_and_get_query_id env query 1 w = (inr query_id, w1) ->
  exists logged, events w1 = events w ++ logged.
Proof.
  rewrite log_query_run.
  destruct (fault env (InsertQuery query 1));
    [|destruct (fault env (SelectMaxQueryId query 1))];
    intros Hrun; injection Hrun as _ <-; eexists; reflexivity.
Qed.

(** The second half of the handler either leaves the store alone or
    ends by showing the insight, inserting it and confirming. *)
Lemma analyze_cases (env : Env) (query_id : option Z) (context : pystr)
    (w : World) :
  (exists trail,
      analyze env query_id (Some context) w
      = (inr tt, {| store := store w; events := events w ++ trail |}))
  \/ (exists insights before,
        analyze env query_id (Some context) w
        = (inr tt,
           {| store := Sql.insert_insight insights query_id (store w);
              events :=
                events w ++ before
                ++ [ Shown (Write insights);
                     Sent (InsertInsight insights query_id);
                     Shown (Success $"Insights logged successfully!") ] |})).
Proof.
  destruct (forallb Py.isspace context) eqn:Hctx.
  - left. rewrite (analyze_blank env query_id context w Hctx).
    eexists. reflexivity.
  - destruct (analyze_context env query_id context w Hctx)
      as (insights & _ & Hrun).
    rewrite Hrun. destruct (Py.truthy_id query_id).
    + rewrite log_insights_run.
      destruct (fault env (InsertInsight insights query_id)).
      * left. eexists. cbn [store events]. rewrite <- app_assoc. reflexivity.
      * right. exists insights.
        exists [ Sent (CortexComplete MODEL (prompt_of context));
                 Shown (Markdown $"### Generated Insights") ].
        cbn [store events]. rewrite <- !app_assoc. reflexivity.
    + left. eexists. reflexivity.
Qed.

Lemma not_one_longer {A : Type} (l : list A) (x : A) : l <> l ++ [x].
Proof.
  intros Heq. apply (f_equal (@List.length A)) in Heq.
  rewrite length_app in Heq. cbn in Heq. lia.
Qed.

(** X14.  What is stored is what was shown.  Whenever a run of the
    handler leaves one more row in INSIGHTS, the last three things it
    did were to show that row's text on the page, to send the insert
    of that text under that row's query id, and to show the
    confirmation; and the row carries the store's next insight id and
    clock. *)
Theorem stored_insight_was_shown (env : Env) (query custom_context : pystr)
    (w : World) (row : Insights.row) :
  let w' := snd (fetch_and_analyze env query custom_context w) in
  INSIGHTS (store w') = INSIGHTS (store w) ++ [row] ->
  fst (fetch_and_analyze env query custom_context w) = inr tt
  /\ Insights.INSIGHTID row = INSIGHTID_SEQ (store w)
  /\ Insights.GENERATEDAT row = NOW (store w)
  /\ exists before,
       events w'
       = events w ++ before
         ++ [ Shown (Write (Insights.INSIGHTTEXT row));
              Sent (InsertInsight (Insights.INSIGHTTEXT row)
                      (Insights.QUERYID row));
              Shown (Success $"Insights logged successfully!") ].
Proof.
  cbv zeta.
  destruct (Py.truthy custom_context) eqn:Hcc;
    [|destruct (Py.truthy query) eqn:Hq].
  1, 3: destruct (handler_without_query_path env query custom_context w)
      as (w' & trail & Hrun & Hstore & _); [auto | ];
    rewrite Hrun; cbn [snd]; rewrite Hstore; intros Hrow;
    destruct (not_one_longer _ _ Hrow).
  unfold fetch_and_analyze. rewrite Hq. cbn [orb]. cbn [bind Monad_M].
  destruct (log_query_total env query 1 w) as (query_id & w1 & Hlog & Hw1).
  assert (Hkept : INSIGHTS (store w1) = INSIGHTS (store w)
                  /\ INSIGHTID_SEQ (store w1) = INSIGHTID_SEQ (store w)
                  /\ NOW (store w1) = NOW (store w)).
  { destruct Hw1 as [[-> _] | ->]; repeat split. }
  destruct Hkept as (Hrows & Hseq & Hnow).
  destruct (resolve_context_query_path env query custom_context w w1 query_id
              Hcc Hlog) as [Hunbound Hbound].
  destruct (Py.truthy_id query_id).
  - destruct (fetch_documents_total env query w1)
      as (documents & trail & Hfetch & _).
    rewrite (Hbound eq_refl _ _ Hfetch). cbn [store events].
    match goal with
    | |- context [analyze env query_id (Some ?c) ?w2] =>
        destruct (analyze_cases env query_id c w2)
          as [(tr & Hrun) | (insights & before & Hrun)];
        change (analyze env query_id (Some c) w2)
          with (analyze env query_id (@Some pystr c) w2)
    end; rewrite Hrun; cbn [fst snd store events].
    + rewrite Hrows. intros Hrow. destruct (not_one_longer _ _ Hrow).
    + cbn [Sql.insert_insight INSIGHTS]. rewrite Hrows, Hseq, Hnow.
      intros Hrow. apply app_inj_tail in Hrow. destruct Hrow as [_ <-].
      cbn [Insights.INSIGHTID Insights.GENERATEDAT Insights.INSIGHTTEXT
           Insights.QUERYID].
      repeat (split; [reflexivity|]).
      destruct (log_query_returned_or_not env query w w1 query_id Hlog)
        as (logged & Hevents).
      rewrite Hevents.
      match goal with
      | |- exists b, ((_ ++ trail) ++ ?listing) ++ _ = _ =>
          exists (logged ++ trail ++ listing ++ before)
      end.
      rewrite <- !app_assoc. reflexivity.
  - rewrite (Hunbound eq_refl), analyze_unbound. cbn [snd].
    rewrite Hrows. intros Hrow. destruct (not_one_longer _ _ Hrow).
Qed.

Lemma stored_insight_was_shown_witness :
  exists before,
    events (snd (fetch_and_analyze Runs.healthy $"AR-V7 resistance"
                   Py.empty_str Runs.w0))
    = before
      ++ [ Shown (Write $"AR-V7 drives resistance.");
           Sent (InsertInsight $"AR-V7 drives resistance." (Some 1));
           Shown (Success $"Insights logged successfully!") ].
Proof.
  destruct (stored_insight_was_shown Runs.healthy $"AR-V7 resistance"
              Py.empty_str Runs.w0
              {| Insights.INSIGHTID := 1;
                 Insights.INSIGHTTEXT := $"AR-V7 drives resistance.";
                 Insights.QUERYID := Some 1;
                 Insights.GENERATEDAT := 100 |})
    as (_ & _ & _ & before & Hevents).
  - vm_compute. reflexivity.
  - exists before. exact Hevents.
Defined.
